(** * IntelOwl analyzer core: lifecycle runner, report aggregation, polling

    A shallow embedding of [api_app/script_analyzers/classes.py] and
    [api_app/script_analyzers/utils.py].

    - Python values that travel inside reports and worker answers are a small
      inductive type [value]; a report (a Python dict) is a [gmap string value].
    - Exceptions are a class tag and the text [str(e)] gives.
    - Stateful code is written in a state-and-exception monad [M S A]; the
      state is the job store and the clock for the runner and the aggregator,
      and the remote worker for the polling client.
    - The job store keeps one row per job id, a journal of the committed
      writes, and the plan of the writes it is going to refuse. *)

From Stdlib Require Import ZArith List Lia Permutation.
From stdpp Require Import base decidable option list gmap strings pretty.

Set Default Proof Using "Type".
Set Warnings "-register-all".
Local Open Scope string_scope.

(** ** Python values *)

Inductive value :=
| VNone
| VBool (b : bool)
| VNum (z : Z)
| VStr (s : string)
| VList (l : list value)
| VDict (d : list (string * value)).

(** Truth value of an object, as [not x] and [if x] read it. *)
Definition truthy (v : value) : bool :=
  match v with
  | VNone => false
  | VBool b => b
  | VNum z => negb (z =? 0)%Z
  | VStr s => negb (String.eqb s "")
  | VList l => match l with [] => false | _ => true end
  | VDict d => match d with [] => false | _ => true end
  end.

(** A dict with string keys: a report, or the JSON body of a worker answer. *)
Abbreviation pydict := (gmap string value).

(** [d.get(key, default)] *)
Definition dict_get (d : pydict) (key : string) (dflt : value) : value :=
  default dflt (d !! key).

(** ** Exceptions

    The classes of [api_app.exceptions] that the two files import, those of
    the [requests] library and of the database layer that they meet, and the
    built-in ones that dict and attribute access raise. The last two derive
    from [BaseException] only, not from [Exception]: an [except Exception]
    clause lets them pass. *)

Inductive exn_class :=
| AnalyzerRunException
| AnalyzerConfigurationException
| AnalyzerRunNotImplemented
| AlreadyFailedJobException
| RequestException      (* requests: connection error, timeout, ... *)
| HTTPError             (* requests: raised by raise_for_status *)
| DatabaseError
| DoesNotExist
| KeyError
| TypeError
| AttributeError
| OtherException
| SystemExit            (* not an Exception *)
| KeyboardInterrupt.    (* not an Exception *)

#[global] Instance exn_class_eq_dec : EqDecision exn_class.
Proof. solve_decision. Defined.

(** An exception object: its class and what [str(e)] returns. *)
Record exn := Exn { class_of : exn_class; str : string }.

(** [requests.HTTPError] derives from [requests.RequestException]. *)
Definition is_request_exception (e : exn) : bool :=
  match class_of e with
  | RequestException | HTTPError => true
  | _ => false
  end.

(** [isinstance(e, Exception)] *)
Definition is_exception (e : exn) : bool :=
  match class_of e with
  | SystemExit | KeyboardInterrupt => false
  | _ => true
  end.

(** ** The monad: state passing with exceptions *)

Inductive res (A : Type) :=
| Ok (a : A)
| Raise (e : exn).
Arguments Ok {A} a.
Arguments Raise {A} e.

Definition M (S A : Type) : Type := S -> res A * S.

Definition ret {S A} (a : A) : M S A := fun s => (Ok a, s).

Definition raise {S A} (e : exn) : M S A := fun s => (Raise e, s).

Definition bind {S A B} (m : M S A) (k : A -> M S B) : M S B :=
  fun s =>
    match m s with
    | (Ok a, s') => k a s'
    | (Raise e, s') => (Raise e, s')
    end.

Notation "x <- c1 ;; c2" := (bind c1 (fun x => c2))
  (at level 100, c1 at next level, right associativity).
Notation "c1 ;; c2" := (bind c1 (fun _ => c2))
  (at level 100, right associativity).

(** [try: body / except Exception as e: handler e]; what does not derive
    from [Exception] passes the clause. *)
Definition try_except {S A} (body : M S A) (handler : exn -> M S A) : M S A :=
  fun s =>
    match body s with
    | (Ok a, s') => (Ok a, s')
    | (Raise e, s') => if is_exception e then handler e s' else (Raise e, s')
    end.

Definition gets {S A} (f : S -> A) : M S A := fun s => (Ok (f s), s).

Definition modify {S} (f : S -> S) : M S unit := fun s => (Ok tt, f s).

(** A pure step that may raise. *)
Definition lift_res {S A} (r : res A) : M S A := fun s => (r, s).

Definition is_ok {A} (r : res A) : bool :=
  match r with Ok _ => true | Raise _ => false end.

(** ** The job store *)

Inductive field :=
| F_status
| F_analyzers_to_execute
| F_analysis_reports
| F_finished_analysis_time
| F_errors.

#[global] Instance field_eq_dec : EqDecision field.
Proof. solve_decision. Defined.

Definition all_fields : list field :=
  [F_status; F_analyzers_to_execute; F_analysis_reports;
   F_finished_analysis_time; F_errors].

Record Job := mkJob {
  status : string;
  analyzers_to_execute : list string;
  analysis_reports : list pydict;
  finished_analysis_time : option Z;
  errors : list string
}.

Definition set_status (v : string) (j : Job) : Job :=
  mkJob v (analyzers_to_execute j) (analysis_reports j)
        (finished_analysis_time j) (errors j).
Definition set_analysis_reports (v : list pydict) (j : Job) : Job :=
  mkJob (status j) (analyzers_to_execute j) v
        (finished_analysis_time j) (errors j).
Definition set_finished_analysis_time (v : option Z) (j : Job) : Job :=
  mkJob (status j) (analyzers_to_execute j) (analysis_reports j) v (errors j).
Definition set_errors (v : list string) (j : Job) : Job :=
  mkJob (status j) (analyzers_to_execute j) (analysis_reports j)
        (finished_analysis_time j) v.

(** A model instance in memory: the primary key and the loaded columns.
    Changing it changes nothing in the store until it is saved. *)
Record JobObject := mkJobObject { pk : Z; row : Job }.

Definition on_row (f : Job -> Job) (o : JobObject) : JobObject :=
  mkJobObject (pk o) (f (row o)).

(** One committed write: the row and the columns written. *)
Definition write : Type := Z * list field.

Record World := mkWorld {
  db : gmap Z Job;
  journal : list write;
  faults : list (option string);
  now : Z;
  now_str : string
}.

Definition set_store (d : gmap Z Job) (jl : list write) (w : World) : World :=
  mkWorld d jl (faults w) (now w) (now_str w).
Definition set_faults (f : list (option string)) (w : World) : World :=
  mkWorld (db w) (journal w) f (now w) (now_str w).

(** The store accepts every write still to come. *)
Definition healthy (w : World) : Prop := faults w = [].

(** Takes column [f] of [src] into [dst]. *)
Definition copy_field (f : field) (src dst : Job) : Job :=
  match f with
  | F_status => set_status (status src) dst
  | F_analyzers_to_execute =>
      mkJob (status dst) (analyzers_to_execute src) (analysis_reports dst)
            (finished_analysis_time dst) (errors dst)
  | F_analysis_reports => set_analysis_reports (analysis_reports src) dst
  | F_finished_analysis_time =>
      set_finished_analysis_time (finished_analysis_time src) dst
  | F_errors => set_errors (errors src) dst
  end.

Definition persist (fields : list field) (obj old : Job) : Job :=
  fold_left (fun acc f => copy_field f obj acc) fields old.

(** Modelled from the spec: [Job.object_by_job_id] of [api_app.models], the
    job store's [get_job(job_id) -> Job]. The row is read as it is now;
    asking for an id that has no row raises. *)
Definition object_by_job_id (job_id : Z) : M World JobObject :=
  fun w =>
    match db w !! job_id with
    | Some j => (Ok (mkJobObject job_id j), w)
    | None => (Raise (Exn DoesNotExist "Job matching query does not exist."), w)
    end.

(** Modelled from the spec: the model's [save], the job store's
    [save(job, fields)], a partial-field persist; with no [update_fields]
    every column is written. The head of [faults] says whether the store
    refuses this write, and with what message. *)
Definition save (o : JobObject) (update_fields : option (list field))
  : M World unit :=
  fun w =>
    match faults w with
    | Some msg :: rest => (Raise (Exn DatabaseError msg), set_faults rest w)
    | plan =>
        let w1 := set_faults (tail plan) w in
        match update_fields with
        | None =>
            (Ok tt, set_store (<[pk o := row o]> (db w1))
                              (journal w1 ++ [(pk o, all_fields)]) w1)
        | Some fs =>
            match db w1 !! pk o with
            | Some old =>
                (Ok tt, set_store (<[pk o := persist fs (row o) old]> (db w1))
                                  (journal w1 ++ [(pk o, fs)]) w1)
            | None =>
                (Raise (Exn DatabaseError
                          "Save with update_fields did not affect any rows."),
                 w1)
            end
        end
    end.

(** Modelled from the spec: [get_now] of [api_app.helpers] (imported from
    [api_app.utilities] in [classes.py]), the clock of the specification; it
    reads the current time. *)
Definition get_now : M World Z := gets now.

(** ** Job status setter ([set_job_status])

    [classes.py] and [utils.py] hold the same text of [set_job_status] and of
    [set_report_and_cleanup]; one definition stands for both copies. *)

Definition set_job_status (job_id : Z) (new_status : string)
  (errs : option (list string)) : M World unit :=
  job_object <- object_by_job_id job_id ;;
  let job_object :=
    match errs with
    | Some (e :: es) => on_row (fun j => set_errors (errors j ++ e :: es) j) job_object
    | _ => job_object
    end in
  let job_object := on_row (set_status new_status) job_object in
  save job_object None.

(** ** Job report aggregator ([set_report_and_cleanup]) *)

(** The function's frame: the store and the local variable [job_object],
    which the handlers read after the [try] block was left. *)
Record Frame := mkFrame { world : World; job_object : option JobObject }.

(** Runs a callee on the store of the frame. *)
Definition call {A} (m : M World A) : M Frame A :=
  fun fr =>
    let '(r, w) := m (world fr) in (r, mkFrame w (job_object fr)).

(** Reads the local [job_object] to reach one of its attributes. *)
Definition the_job_object : M Frame JobObject :=
  fun fr =>
    match job_object fr with
    | Some o => (Ok o, fr)
    | None =>
        (Raise (Exn AttributeError "'NoneType' object has no attribute"), fr)
    end.

Definition assign_job_object (o : JobObject) : M Frame unit :=
  modify (fun fr => mkFrame (world fr) (Some o)).

(** [with transaction.atomic():] commits when the block ends and rolls the
    store back when the block is left by an exception. Objects in memory and
    the environment's fault plan are not part of the store. *)
Definition atomic {A} (block : M Frame A) : M Frame A :=
  fun fr =>
    match block fr with
    | (Ok a, fr') => (Ok a, fr')
    | (Raise e, fr') =>
        (Raise e,
         mkFrame (set_store (db (world fr)) (journal (world fr)) (world fr'))
                 (job_object fr'))
    end.

(** The loop counting the failed analyzers. *)
Definition count_failed (reports : list pydict) : nat :=
  fold_left
    (fun failed_analyzers analysis_report =>
       if negb (truthy (dict_get analysis_report "success" (VBool false)))
       then S failed_analyzers else failed_analyzers)
    reports 0.

Definition status_to_set (reports : list pydict) : string :=
  let num_analysis_reports := length reports in
  let failed_analyzers := count_failed reports in
  if (failed_analyzers =? num_analysis_reports)%nat then "failed"
  else if (1 <=? failed_analyzers)%nat then "reported_with_fails"
  else "reported_without_fails".

Definition try_block (job_id : Z) (report : pydict) : M Frame unit :=
  atomic (
    o <- call (object_by_job_id job_id) ;;
    assign_job_object o ;;
    o <- the_job_object ;;
    assign_job_object
      (on_row (fun j => set_analysis_reports (analysis_reports j ++ [report]) j) o) ;;
    o <- the_job_object ;;
    call (save o (Some [F_analysis_reports])) ;;
    o <- the_job_object ;;
    if bool_decide (status (row o) = "failed")
    then raise (Exn AlreadyFailedJobException "")
    else ret tt) ;;
  o <- the_job_object ;;
  let num_analysis_reports := length (analysis_reports (row o)) in
  let num_analyzers_to_execute := length (analyzers_to_execute (row o)) in
  if (num_analysis_reports =? num_analyzers_to_execute)%nat then
    call (set_job_status job_id (status_to_set (analysis_reports (row o))) None) ;;
    t <- call get_now ;;
    o <- the_job_object ;;
    assign_job_object (on_row (set_finished_analysis_time (Some t)) o) ;;
    o <- the_job_object ;;
    call (save o (Some [F_finished_analysis_time]))
  else ret tt.

Definition except_block (job_id : Z) (e : exn) : M Frame unit :=
  if bool_decide (class_of e = AlreadyFailedJobException) then
    ret tt
  else
    call (set_job_status job_id "failed" (Some [str e])) ;;
    t <- call get_now ;;
    o <- the_job_object ;;
    assign_job_object (on_row (set_finished_analysis_time (Some t)) o) ;;
    o <- the_job_object ;;
    call (save o (Some [F_finished_analysis_time])).

Definition set_report_and_cleanup (job_id : Z) (report : pydict)
  : M World unit :=
  fun w =>
    let '(r, fr) :=
      try_except (try_block job_id report) (except_block job_id)
                 (mkFrame w None) in
    (r, world fr).

(** The analyzers of a job hand in their reports one after the other. *)
Fixpoint submit_all (job_id : Z) (reports : list pydict) : M World unit :=
  match reports with
  | [] => ret tt
  | report :: rest =>
      set_report_and_cleanup job_id report ;; submit_all job_id rest
  end.

(** What the journal tells about a job: how often its
    [finished_analysis_time] was stamped, and how often [set_job_status]
    wrote the whole row. *)
Definition finish_stamps (job_id : Z) (jl : list write) : nat :=
  length (filter (fun x => x = (job_id, [F_finished_analysis_time])) jl).

Definition status_updates (job_id : Z) (jl : list write) : nat :=
  length (filter (fun x => x = (job_id, all_fields)) jl).

(** The success flag of a report as the aggregator reads it. *)
Definition success_flag (r : pydict) : bool :=
  truthy (dict_get r "success" (VBool false)).

(** The terminal status in the words of the specification: without fails when
    every report succeeded, failed when none did, with fails otherwise. *)
Definition spec_terminal_status (reports : list pydict) : string :=
  if forallb success_flag reports then "reported_without_fails"
  else if forallb (fun r => negb (success_flag r)) reports then "failed"
  else "reported_with_fails".

Definition terminal (s : string) : Prop :=
  s = "reported_without_fails" \/ s = "reported_with_fails" \/ s = "failed".

(** ** Operations on report dicts *)

(** [d[key]]; the text of a [KeyError] is the key in quotes. *)
Definition getitem (d : pydict) (key : string) : res value :=
  match d !! key with
  | Some v => Ok v
  | None => Raise (Exn KeyError ("'" +:+ key +:+ "'"))
  end.

(** [v.append(x)] *)
Definition list_append (v x : value) : res value :=
  match v with
  | VList l => Ok (VList (l ++ [x]))
  | _ => Raise (Exn AttributeError "object has no attribute 'append'")
  end.

(** [a - b] on numbers; a bool counts as 0 or 1. *)
Definition as_num (v : value) : res Z :=
  match v with
  | VNum z => Ok z
  | VBool b => Ok (if b then 1 else 0)%Z
  | _ => Raise (Exn TypeError "unsupported operand type(s) for -")
  end.

Definition py_sub (a b : value) : res value :=
  match as_num a, as_num b with
  | Ok x, Ok y => Ok (VNum (x - y))
  | Raise e, _ => Raise e
  | _, Raise e => Raise e
  end.

(** [repr(v)] and [str(v)]; string literals are rendered without escapes. *)
Fixpoint py_repr (v : value) : string :=
  match v with
  | VNone => "None"
  | VBool true => "True"
  | VBool false => "False"
  | VNum z => pretty z
  | VStr s => "'" +:+ s +:+ "'"
  | VList l => "[" +:+ String.concat ", " (map py_repr l) +:+ "]"
  | VDict d =>
      "{" +:+ String.concat ", "
                (map (fun kv => "'" +:+ fst kv +:+ "': " +:+ py_repr (snd kv)) d)
          +:+ "}"
  end.

Definition py_str (v : value) : string :=
  match v with
  | VStr s => s
  | _ => py_repr v
  end.

(** ** Report template ([get_basic_report_template]) *)

Definition get_basic_report_template (analyzer_name : string) : M World pydict :=
  fun w =>
    (Ok (<["name" := VStr analyzer_name]>
         (<["success" := VBool false]>
         (<["report" := VDict []]>
         (<["errors" := VList []]>
         (<["process_time" := VNum 0]>
         (<["started_time" := VNum (now w)]>
         (<["started_time_str" := VStr (now_str w)]> ∅))))))),
     w).

(** [time.time()] *)
Definition time_time : M World value := gets (fun w => VNum (now w)).

(** ** Analyzer lifecycle runner ([BaseAnalyzerMixin]) *)

(** An analyzer instance: its name, its job, and what the subclass puts in
    the three abstract methods. *)
Record Analyzer := mkAnalyzer {
  analyzer_name : string;
  job_id : Z;
  before_run : M World unit;
  run : M World value;
  after_run : M World unit
}.

(** [try: body / except Exception as e: handler e / else: orelse]; what
    does not derive from [Exception] passes the clause. *)
Definition try_except_else {S A B}
  (body : M S A) (handler : exn -> M S B) (orelse : A -> M S B) : M S B :=
  fun s =>
    match body s with
    | (Ok a, s') => orelse a s'
    | (Raise e, s') => if is_exception e then handler e s' else (Raise e, s')
    end.

(** [run] returned, or raised what derives from [Exception]. *)
Definition ordinary (r : res value) : bool :=
  match r with
  | Ok _ => true
  | Raise e => is_exception e
  end.

(** [except (AnalyzerConfigurationException, AnalyzerRunException)] *)
Definition is_analyzer_exception (e : exn) : bool :=
  match class_of e with
  | AnalyzerConfigurationException | AnalyzerRunException => true
  | _ => false
  end.

Definition _handle_analyzer_exception (a : Analyzer) (report : pydict)
  (err : exn) : M World pydict :=
  let error_message :=
    "job_id:" +:+ pretty (job_id a) +:+ ", analyzer: '" +:+ analyzer_name a
      +:+ "'. Analyzer error: '" +:+ str err +:+ "'" in
  errs <- lift_res (getitem report "errors") ;;
  errs <- lift_res (list_append errs (VStr error_message)) ;;
  let report := <["errors" := errs]> report in
  ret (<["success" := VBool false]> report).

Definition _handle_base_exception (a : Analyzer) (report : pydict)
  (err : exn) : M World pydict :=
  errs <- lift_res (getitem report "errors") ;;
  errs <- lift_res (list_append errs (VStr (str err))) ;;
  let report := <["errors" := errs]> report in
  ret (<["success" := VBool false]> report).

(** [start]. [self.report] is threaded as [report]. The template is the
    first statement of the [try] block; it cannot raise, and it is bound
    ahead of the block because both handlers read [self.report]. *)
Definition start (a : Analyzer) : M World pydict :=
  before_run a ;;
  report <- get_basic_report_template (analyzer_name a) ;;
  report <- try_except_else
              (result <- run a ;;
               ret (<["report" := result]> report))
              (fun e =>
                 if is_analyzer_exception e
                 then _handle_analyzer_exception a report e
                 else _handle_base_exception a report e)
              (fun report => ret (<["success" := VBool true]> report)) ;;
  t <- time_time ;;
  started_time <- lift_res (getitem report "started_time") ;;
  process_time <- lift_res (py_sub t started_time) ;;
  let report := <["process_time" := process_time]> report in
  set_report_and_cleanup (job_id a) report ;;
  after_run a ;;
  ret report.

(** ** Polling client ([DockerBasedAnalyzer]) *)

(** What one HTTP query of the worker gives: a status code with the parsed
    JSON body, or an exception of the [requests] library. *)
Inductive reply :=
| Answer (status_code : Z) (json_data : pydict)
| Failure (e : exn).

(** The remote side: what the worker replies to the [n]-th query of a URL,
    the number of queries made so far, and the seconds slept. *)
Record Net := mkNet {
  worker : string -> nat -> reply;
  asked : nat;
  slept : N
}.

Record DockerBasedAnalyzer := mkDockerBasedAnalyzer {
  docker_name : string;
  docker_job_id : Z;
  url : string;
  max_tries : Z;
  poll_distance : N
}.

(** [time.sleep(seconds)]; the argument is a duration. *)
Definition sleep (seconds : N) : M Net unit :=
  modify (fun n => mkNet (worker n) (asked n) (slept n + seconds)%N).

Definition _query_for_result (url key : string) : M Net (Z * pydict) :=
  fun n =>
    let n' := mkNet (worker n) (S (asked n)) (slept n) in
    match worker n (url +:+ "?key=" +:+ key) (asked n) with
    | Answer status_code data => (Ok (status_code, data), n')
    | Failure e => (Raise e, n')
    end.

(** [analysis_status in ["success", "reported_with_fails", "failed"]] *)
Definition value_is_str (v : value) (s : string) : bool :=
  match v with
  | VStr t => String.eqb t s
  | _ => false
  end.

Definition in_terminal_set (analysis_status : value) : bool :=
  existsb (value_is_str analysis_status)
          ["success"; "reported_with_fails"; "failed"].

(** The locals of [_poll_for_result] that outlive the loop. *)
Record poll_locals := mkPollLocals {
  got_result : bool;
  json_data : option pydict
}.

(** The [for chance in range(self.max_tries)] loop; [chances] is what is
    left of the range. Returning without the recursive call is [break]. *)
Fixpoint poll_loop (a : DockerBasedAnalyzer) (req_key : string)
  (chances : list nat) (st : poll_locals) : M Net poll_locals :=
  match chances with
  | [] => ret st
  | chance :: rest =>
      sleep (poll_distance a) ;;
      answer <- try_except
                  (_query_for_result (url a) req_key)
                  (fun e =>
                     if is_request_exception e
                     then raise (Exn AnalyzerRunException (str e))
                     else raise e) ;;
      let st := mkPollLocals (got_result st) (Some (snd answer)) in
      let analysis_status := dict_get (snd answer) "status" VNone in
      if in_terminal_set analysis_status then
        ret (mkPollLocals true (json_data st))
      else
        poll_loop a req_key rest st
  end.

Definition _poll_for_result (a : DockerBasedAnalyzer) (req_key : string)
  : M Net pydict :=
  st <- poll_loop a req_key (seq 0 (Z.to_nat (max_tries a)))
                  (mkPollLocals false None) ;;
  if negb (got_result st) then
    raise (Exn AnalyzerRunException
             ("max " +:+ docker_name a
                +:+ " polls tried without getting any result."
                +:+ "job_id:" +:+ pretty (docker_job_id a)))
  else
    match json_data st with
    | Some d => ret d
    | None => raise (Exn OtherException "local variable 'json_data' referenced before assignment")
    end.

(** ** Error translation ([_check_status_code]) *)

(** An HTTP response of the worker: the status code, the JSON object of the
    body ([None] when the body holds none), and the reason phrase and URL
    that the [requests] library puts into its own error text. *)
Record Response := mkResponse {
  resp_status_code : Z;
  resp_body : option pydict;
  resp_reason : string;
  resp_url : string
}.

(** [req.json()] *)
Definition json (req : Response) : res pydict :=
  match resp_body req with
  | Some d => Ok d
  | None => Raise (Exn OtherException "Expecting value")
  end.

(** [req.raise_for_status()] of the [requests] library: an [HTTPError] for
    the codes 400 to 599. *)
Definition raise_for_status (req : Response) : res unit :=
  let code := resp_status_code req in
  if ((400 <=? code) && (code <? 500))%Z then
    Raise (Exn HTTPError (pretty code +:+ " Client Error: " +:+ resp_reason req
                            +:+ " for url: " +:+ resp_url req))
  else if ((500 <=? code) && (code <? 600))%Z then
    Raise (Exn HTTPError (pretty code +:+ " Server Error: " +:+ resp_reason req
                            +:+ " for url: " +:+ resp_url req))
  else Ok tt.

Definition _check_status_code (name : string) (req : Response) : res bool :=
  if (resp_status_code req =? 404)%Z then
    Raise (Exn AnalyzerRunException (name +:+ " docker container is not running."))
  else if (resp_status_code req =? 400)%Z then
    match json req with
    | Raise e => Raise e
    | Ok d =>
        match getitem d "error" with
        | Raise e => Raise e
        | Ok err => Raise (Exn AnalyzerRunException (py_str err))
        end
    end
  else if (resp_status_code req =? 500)%Z then
    Raise (Exn AnalyzerRunException
             ("Internal Server Error in " +:+ name +:+ " docker container"))
  else
    match raise_for_status req with
    | Raise e => Raise e
    | Ok _ => Ok true
    end.


(** A report that the aggregator counts as failed. *)
Definition failed_report (r : pydict) : bool := negb (success_flag r).

(** The store accepts the next [n] writes. *)
Definition accepted (n : nat) (plan : list (option string)) : bool :=
  forallb (fun f => match f with None => true | Some _ => false end)
          (firstn n plan).

(** ** Readings of the polling client's state *)

(** The worker answered, and with a status outside the terminal set. *)
Definition pending_reply (r : reply) : bool :=
  match r with
  | Answer _ d => negb (in_terminal_set (dict_get d "status" VNone))
  | Failure _ => false
  end.

(** The URL that [_query_for_result] asks for. *)
Definition query_url (a : DockerBasedAnalyzer) (req_key : string) : string :=
  url a +:+ "?key=" +:+ req_key.

(** The remote side after one more chance of the loop, and after [k]. *)
Definition next_chance (a : DockerBasedAnalyzer) (n : Net) : Net :=
  mkNet (worker n) (S (asked n)) (slept n + poll_distance a).

Definition after_queries (a : DockerBasedAnalyzer) (k : nat) (n : Net) : Net :=
  mkNet (worker n) (asked n + k) (slept n + N.of_nat k * poll_distance a).

(** What [_check_status_code] decides, without the text of the error. *)
Definition verdict (r : res bool) : option exn_class :=
  match r with
  | Ok _ => None
  | Raise e => Some (class_of e)
  end.

(** ** Sample data *)

Definition demo_ok : pydict :=
  <["name" := VStr "a"]> (<["success" := VBool true]> ∅).

Definition demo_failing : pydict :=
  <["name" := VStr "b"]> (<["success" := VBool false]> ∅).

Definition demo_bare : pydict := <["name" := VStr "c"]> ∅.

Definition demo_job (names : list string) : Job :=
  mkJob "running" names [] None [].

(** One job, numbered 7, in a store with the given fault plan. *)
Definition demo_world (names : list string) (plan : list (option string))
  : World :=
  mkWorld (<[7%Z := demo_job names]> ∅) [] plan 100 "2020-01-01 00:00:00".

Definition advance (seconds : Z) (w : World) : World :=
  mkWorld (db w) (journal w) (faults w) (now w + seconds) (now_str w).

(** An analyzer whose [run] takes five seconds and raises. *)
Definition demo_raising : Analyzer :=
  mkAnalyzer "a" 7 (ret tt)
    (fun w => (Raise (Exn AnalyzerRunException "unreachable host"), advance 5 w))
    (ret tt).

(** An analyzer whose [before_run] hook raises. *)
Definition demo_bad_hook : Analyzer :=
  mkAnalyzer "a" 7 (raise (Exn OtherException "hook failed"))
    (ret (VStr "fine")) (ret tt).

Definition demo_docker : DockerBasedAnalyzer :=
  mkDockerBasedAnalyzer "PEframe" 7 "http://peframe:4002/run" 3 0.

Definition demo_running : pydict := <["status" := VStr "running"]> ∅.

Definition demo_done : pydict :=
  <["status" := VStr "success"]> (<["report" := VNum 3]> ∅).

(** Answers "running" twice, then hands out the result. *)
Definition demo_worker (u : string) (n : nat) : reply :=
  match n with
  | 0 | 1 => Answer 200 demo_running
  | _ => Answer 200 demo_done
  end.

(** Never gets further than "running". *)
Definition demo_slow_worker (u : string) (n : nat) : reply :=
  Answer 200 demo_running.

(** Answers "running" once, then the connection breaks. *)
Definition demo_broken_worker (u : string) (n : nat) : reply :=
  match n with
  | 0 => Answer 200 demo_running
  | _ => Failure (Exn RequestException "Connection refused")
  end.

Definition demo_bad_request : Response :=
  mkResponse 400 (Some (<["error" := VStr "no file given"]> ∅))
             "Bad Request" "http://peframe:4002/run".

(** ** Marking an analyzer as failed ([set_failed_analyzer]) *)

Definition set_failed_analyzer (analyzer_name : string) (job_id : Z)
  (error_message : string) : M World unit :=
  report <- get_basic_report_template analyzer_name ;;
  errs <- lift_res (getitem report "errors") ;;
  errs <- lift_res (list_append errs (VStr error_message)) ;;
  let report := <["errors" := errs]> report in
  set_report_and_cleanup job_id report.

(** ** The two analyzer variants ([ObservableAnalyzer], [FileAnalyzer])

    Each carries its identifying context and the [run] of the subclass; its
    [before_run] and [after_run] only write a log line, which leaves the
    store and the clock as they are. *)

Record ObservableAnalyzer := mkObservableAnalyzer {
  oa_analyzer_name : string;
  oa_job_id : Z;
  observable_name : string;
  observable_classification : string;
  oa_run : M World value
}.

Record FileAnalyzer := mkFileAnalyzer {
  fa_analyzer_name : string;
  fa_job_id : Z;
  md5 : string;
  filepath : string;
  filename : string;
  fa_run : M World value
}.

Definition observable_analyzer (o : ObservableAnalyzer) : Analyzer :=
  mkAnalyzer (oa_analyzer_name o) (oa_job_id o) (ret tt) (oa_run o) (ret tt).

Definition file_analyzer (f : FileAnalyzer) : Analyzer :=
  mkAnalyzer (fa_analyzer_name f) (fa_job_id f) (ret tt) (fa_run f) (ret tt).

(** ** Readings used by the further properties *)

(** The text that the two handlers of [start] append to [errors]. *)
Definition recorded_error (a : Analyzer) (err : exn) : string :=
  if is_analyzer_exception err
  then "job_id:" +:+ pretty (job_id a) +:+ ", analyzer: '" +:+ analyzer_name a
         +:+ "'. Analyzer error: '" +:+ str err +:+ "'"
  else str err.


(** Two replies that differ at most in the HTTP status code. *)
Definition same_payload (r1 r2 : reply) : Prop :=
  match r1, r2 with
  | Answer _ d1, Answer _ d2 => d1 = d2
  | Failure e1, Failure e2 => e1 = e2
  | _, _ => False
  end.

(** ** More sample data *)

Definition demo_observable : ObservableAnalyzer :=
  mkObservableAnalyzer "a" 7 "8.8.8.8" "ip"
    (fun w => (Raise (Exn OtherException "division by zero"), advance 5 w)).

(** An observable analyzer that is interrupted from the keyboard. *)
Definition demo_interrupted : ObservableAnalyzer :=
  mkObservableAnalyzer "a" 7 "8.8.8.8" "ip"
    (fun w => (Raise (Exn KeyboardInterrupt ""), advance 1 w)).

Definition demo_file : FileAnalyzer :=
  mkFileAnalyzer "a" 7 "d41d8cd98f00b204e9800998ecf8427e" "/tmp/sample" "sample"
    (fun w => (Ok (VStr "clean"), advance 2 w)).

(** Two jobs, numbered 7 and 8, with one analyzer each. *)
Definition demo_two_jobs : World :=
  mkWorld (<[7%Z := demo_job ["a"]]> (<[8%Z := demo_job ["b"]]> ∅))
          [] [] 100 "2020-01-01 00:00:00".

(** Like [demo_worker], but every answer comes with status code 404. *)
Definition demo_worker_404 (u : string) (n : nat) : reply :=
  match n with
  | 0 | 1 => Answer 404 demo_running
  | _ => Answer 404 demo_done
  end.

(** Answers "running" once, then the body cannot be parsed. *)
Definition demo_garbled_worker (u : string) (n : nat) : reply :=
  match n with
  | 0 => Answer 200 demo_running
  | _ => Failure (Exn OtherException "Expecting value")
  end.

Definition demo_bad_request_bare : Response :=
  mkResponse 400 (Some (<["detail" := VStr "no file given"]> ∅))
             "Bad Request" "http://peframe:4002/run".

(** ** Proof steps: unfolding the monadic code *)

Ltac run_submit :=
  unfold set_report_and_cleanup, try_except, try_block, except_block, atomic,
    set_job_status, bind, call, object_by_job_id, save, get_now, gets,
    the_job_object, assign_job_object, modify, ret, raise; simpl.

Ltac open_world w H :=
  destruct w as [?d ?jl ?fl ?n ?ns]; unfold healthy in H; simpl in *; subst.

Ltac run_frame :=
  unfold try_except, try_block, except_block, atomic,
    set_job_status, bind, call, object_by_job_id, save, get_now, gets,
    the_job_object, assign_job_object, modify, ret, raise; simpl.

Ltac step_try :=
  simpl;
  match goal with
  | |- (Ok _, _) = (Raise _, _) -> _ => discriminate
  | |- (Raise _, _) = (Raise _, _) -> _ => intros [= <- <-]
  | |- context [<[?k := _]> _ !! ?k] => rewrite lookup_insert_eq
  | H : ?d !! ?k = Some _ |- context [?d !! ?k] => rewrite H
  | |- context [bool_decide ?P] => destruct (bool_decide_reflect P)
  | |- context [(?a =? ?b)%nat] => destruct (Nat.eqb a b)
  | |- context [match ?fl with [] => _ | _ :: _ => _ end] =>
      is_var fl; destruct fl as [|[?|] ?]
  end.

Ltac poll_step :=
  simpl; unfold bind at 1, sleep at 1, modify at 1, bind at 1, try_except at 1,
    _query_for_result at 1; simpl.

Ltac step_any :=
  simpl;
  match goal with
  | |- (_, _) = (_, _) -> _ => intros [= <- <-]
  | |- context [<[?k := _]> _ !! ?k] => rewrite lookup_insert_eq
  | H : ?d !! ?k = _ |- context [?d !! ?k] => rewrite H
  | |- context [bool_decide ?P] => destruct (bool_decide_reflect P)
  | |- context [(?a =? ?b)%nat] => destruct (Nat.eqb a b)
  | |- context [match ?fl with [] => _ | _ :: _ => _ end] =>
      is_var fl; destruct fl as [|[?|] ?]
  end.

Ltac verdict_row :=
  split; [split; intros ?; simpl in *; first [discriminate | lia | reflexivity] |];
  split; [intros ? ?; simpl in *; first [discriminate | congruence] |];
  split; intros ?; simpl in *; first [discriminate | congruence | lia].

(** * Properties *)

(** ** Counting failed reports *)

Lemma count_failed_from (rs : list pydict) (n : nat) :
  fold_left
    (fun failed_analyzers analysis_report =>
       if negb (truthy (dict_get analysis_report "success" (VBool false)))
       then S failed_analyzers else failed_analyzers) rs n
  = n + length (List.filter failed_report rs).
Proof.
  revert n. induction rs as [|r rs IH]; intros n; simpl.
  - lia.
  - rewrite IH. unfold failed_report at 2, success_flag.
    destruct (negb _); simpl; lia.
Qed.

Lemma count_failed_filter rs :
  count_failed rs = length (List.filter failed_report rs).
Proof. unfold count_failed. now rewrite count_failed_from. Qed.

Lemma filter_length_le {A} (f : A -> bool) l :
  length (List.filter f l) <= length l.
Proof. induction l as [|x l IH]; simpl; [lia|]. destruct (f x); simpl; lia. Qed.

Lemma none_failed_iff rs :
  length (List.filter failed_report rs) = 0 <-> forallb success_flag rs = true.
Proof.
  induction rs as [|r rs IH]; simpl; [tauto|].
  unfold failed_report at 1. destruct (success_flag r); simpl.
  - exact IH.
  - split; [lia | discriminate].
Qed.

Lemma all_failed_iff rs :
  length (List.filter failed_report rs) = length rs
  <-> forallb (fun r => negb (success_flag r)) rs = true.
Proof.
  induction rs as [|r rs IH]; simpl; [tauto|].
  unfold failed_report at 1. destruct (success_flag r); simpl.
  - pose proof (filter_length_le failed_report rs). split; [lia | discriminate].
  - rewrite <- IH. split; lia.
Qed.

(** On a non-empty list the code's three-way test is the specification's. *)
Lemma status_to_set_spec rs :
  rs <> [] -> status_to_set rs = spec_terminal_status rs.
Proof.
  intros Hne. unfold status_to_set, spec_terminal_status.
  rewrite count_failed_filter.
  pose proof (none_failed_iff rs) as H0. pose proof (all_failed_iff rs) as Hall.
  assert (0 < length rs) as Hlen by (destruct rs; simpl; [congruence | lia]).
  destruct (forallb success_flag rs) eqn:Ea.
  - assert (length (List.filter failed_report rs) = 0) as -> by now apply H0.
    destruct (Nat.eqb_spec 0 (length rs)); [lia | reflexivity].
  - destruct (forallb (fun r => negb (success_flag r)) rs) eqn:Eb.
    + assert (length (List.filter failed_report rs) = length rs) as ->
        by now apply Hall.
      now rewrite Nat.eqb_refl.
    + destruct (Nat.eqb_spec (length (List.filter failed_report rs)) (length rs))
        as [E|E].
      * apply Hall in E. congruence.
      * destruct (Nat.leb_spec 1 (length (List.filter failed_report rs)))
          as [|Hlt]; [reflexivity|].
        assert (length (List.filter failed_report rs) = 0) as E0 by lia.
        apply H0 in E0. congruence.
Qed.

Lemma forallb_perm {A} (f : A -> bool) l l' :
  Permutation l l' -> forallb f l = forallb f l'.
Proof.
  induction 1; simpl; try congruence.
  destruct (f x), (f y); reflexivity.
Qed.

Lemma spec_terminal_status_perm rs rs' :
  Permutation rs rs' -> spec_terminal_status rs' = spec_terminal_status rs.
Proof.
  intros HP. unfold spec_terminal_status.
  now rewrite (forallb_perm _ _ _ HP),
              (forallb_perm (fun r => negb (success_flag r)) _ _ HP).
Qed.

Lemma spec_terminal_status_terminal rs : terminal (spec_terminal_status rs).
Proof.
  unfold terminal, spec_terminal_status.
  destruct (forallb success_flag rs); [tauto|].
  destruct (forallb _ rs); tauto.
Qed.


(** ** One submission to a store that accepts every write *)

Lemma submit_failed job_id report w j :
  db w !! job_id = Some j -> status j = "failed" -> healthy w ->
  set_report_and_cleanup job_id report w = (Ok tt, w).
Proof.
  intros Hj Hs Hh. open_world w Hh.
  run_submit. rewrite Hj. simpl. rewrite Hj. simpl. rewrite Hs. reflexivity.
Qed.

Lemma submit_pending job_id report w j :
  db w !! job_id = Some j -> status j <> "failed" -> healthy w ->
  S (length (analysis_reports j)) <> length (analyzers_to_execute j) ->
  set_report_and_cleanup job_id report w =
    (Ok tt,
     set_store
       (<[job_id := set_analysis_reports (analysis_reports j ++ [report]) j]> (db w))
       (journal w ++ [(job_id, [F_analysis_reports])]) w).
Proof.
  intros Hj Hs Hh Hn. open_world w Hh.
  run_submit. rewrite Hj. simpl. rewrite Hj. simpl.
  rewrite bool_decide_eq_false_2 by exact Hs. simpl.
  rewrite length_app. simpl.
  replace (length (analysis_reports j) + 1 =? length (analyzers_to_execute j))%nat
    with false by (symmetry; apply Nat.eqb_neq; lia).
  reflexivity.
Qed.

Lemma submit_last job_id report w j :
  db w !! job_id = Some j -> status j <> "failed" -> healthy w ->
  S (length (analysis_reports j)) = length (analyzers_to_execute j) ->
  set_report_and_cleanup job_id report w =
    (Ok tt,
     set_store
       (<[job_id := mkJob (status_to_set (analysis_reports j ++ [report]))
                          (analyzers_to_execute j)
                          (analysis_reports j ++ [report])
                          (Some (now w)) (errors j)]> (db w))
       (journal w ++ [(job_id, [F_analysis_reports]); (job_id, all_fields);
                      (job_id, [F_finished_analysis_time])]) w).
Proof.
  intros Hj Hs Hh Hn. open_world w Hh.
  run_submit. rewrite Hj. simpl. rewrite Hj. simpl.
  rewrite bool_decide_eq_false_2 by exact Hs. simpl.
  rewrite length_app. simpl.
  replace (length (analysis_reports j) + 1 =? length (analyzers_to_execute j))%nat
    with true by (symmetry; apply Nat.eqb_eq; lia).
  simpl. rewrite lookup_insert_eq. simpl. rewrite lookup_insert_eq. simpl.
  rewrite !insert_insert_eq. rewrite <- !app_assoc. simpl.
  reflexivity.
Qed.

(** ** Sequences of submissions *)

Lemma submit_all_app job_id rs1 rs2 w :
  submit_all job_id (rs1 ++ rs2) w =
  (submit_all job_id rs1 ;; submit_all job_id rs2) w.
Proof.
  revert w. induction rs1 as [|r rs1 IH]; intros w; simpl.
  - reflexivity.
  - unfold bind. destruct (set_report_and_cleanup job_id r w) as [[[]|e] w1].
    + rewrite IH. reflexivity.
    + reflexivity.
Qed.

Lemma submit_all_failed job_id rs w j :
  db w !! job_id = Some j -> status j = "failed" -> healthy w ->
  submit_all job_id rs w = (Ok tt, w).
Proof.
  intros Hj Hs Hh. induction rs as [|r rs IH]; simpl; [reflexivity|].
  unfold bind. rewrite (submit_failed _ _ _ _ Hj Hs Hh). exact IH.
Qed.

Lemma set_analysis_reports_id j : set_analysis_reports (analysis_reports j) j = j.
Proof. now destruct j. Qed.

Lemma set_store_id w : set_store (db w) (journal w) w = w.
Proof. now destruct w. Qed.

Lemma submit_all_pending job_id rs : forall w j,
  db w !! job_id = Some j -> status j <> "failed" -> healthy w ->
  length (analysis_reports j) + length rs < length (analyzers_to_execute j) ->
  submit_all job_id rs w =
    (Ok tt,
     set_store
       (<[job_id := set_analysis_reports (analysis_reports j ++ rs) j]> (db w))
       (journal w ++ repeat (job_id, [F_analysis_reports]) (length rs)) w).
Proof.
  induction rs as [|r rs IH]; intros w j Hj Hs Hh Hlen; simpl.
  - unfold ret. rewrite !app_nil_r, set_analysis_reports_id.
    rewrite insert_id by exact Hj. now rewrite set_store_id.
  - simpl in Hlen. unfold bind.
    rewrite (submit_pending _ _ _ _ Hj Hs Hh) by lia.
    rewrite (IH _ (set_analysis_reports (analysis_reports j ++ [r]) j)).
    + simpl. rewrite insert_insert_eq. rewrite <- !app_assoc. simpl.
      unfold set_store. simpl. reflexivity.
    + simpl. apply lookup_insert_eq.
    + exact Hs.
    + exact Hh.
    + simpl. rewrite length_app. simpl. lia.
Qed.

Lemma submit_all_complete job_id rs r w j :
  db w !! job_id = Some j -> status j <> "failed" -> healthy w ->
  analysis_reports j = [] ->
  S (length rs) = length (analyzers_to_execute j) ->
  submit_all job_id (rs ++ [r]) w =
    (Ok tt,
     set_store
       (<[job_id := mkJob (spec_terminal_status (rs ++ [r]))
                          (analyzers_to_execute j) (rs ++ [r])
                          (Some (now w)) (errors j)]> (db w))
       (journal w ++ repeat (job_id, [F_analysis_reports]) (length rs)
                  ++ [(job_id, [F_analysis_reports]); (job_id, all_fields);
                      (job_id, [F_finished_analysis_time])]) w).
Proof.
  intros Hj Hs Hh Hnil Hlen.
  rewrite submit_all_app. unfold bind at 1.
  rewrite (submit_all_pending _ _ _ _ Hj Hs Hh) by (rewrite Hnil; simpl; lia).
  simpl. unfold bind, ret.
  erewrite submit_last; cycle 1.
  - simpl. apply lookup_insert_eq.
  - exact Hs.
  - exact Hh.
  - simpl. rewrite Hnil. simpl. lia.
  - simpl. rewrite Hnil. simpl. rewrite insert_insert_eq.
    rewrite status_to_set_spec by (destruct rs; discriminate).
    rewrite <- !app_assoc. reflexivity.
Qed.

Lemma finish_stamps_app job_id a b :
  finish_stamps job_id (a ++ b) = finish_stamps job_id a + finish_stamps job_id b.
Proof. unfold finish_stamps. now rewrite filter_app, length_app. Qed.

Lemma status_updates_app job_id a b :
  status_updates job_id (a ++ b) = status_updates job_id a + status_updates job_id b.
Proof. unfold status_updates. now rewrite filter_app, length_app. Qed.

Lemma finish_stamps_appends job_id n :
  finish_stamps job_id (repeat (job_id, [F_analysis_reports]) n) = 0.
Proof.
  unfold finish_stamps. induction n as [|n IH]; simpl; [reflexivity|].
  rewrite filter_cons_False by (intros [=]). exact IH.
Qed.

Lemma status_updates_appends job_id n :
  status_updates job_id (repeat (job_id, [F_analysis_reports]) n) = 0.
Proof.
  unfold status_updates. induction n as [|n IH]; simpl; [reflexivity|].
  rewrite filter_cons_False by (intros [=]). exact IH.
Qed.

Lemma finish_stamps_completion job_id :
  finish_stamps job_id [(job_id, [F_analysis_reports]); (job_id, all_fields);
                        (job_id, [F_finished_analysis_time])] = 1.
Proof.
  unfold finish_stamps.
  rewrite filter_cons_False by (intros [=]).
  rewrite filter_cons_False by (intros [=]).
  rewrite filter_cons_True by reflexivity. reflexivity.
Qed.

Lemma status_updates_completion job_id :
  status_updates job_id [(job_id, [F_analysis_reports]); (job_id, all_fields);
                         (job_id, [F_finished_analysis_time])] = 1.
Proof.
  unfold status_updates.
  rewrite filter_cons_False by (intros [=]).
  rewrite filter_cons_True by reflexivity.
  rewrite filter_cons_False by (intros [=]). reflexivity.
Qed.

Lemma all_reports_outcome job_id w j reports :
  db w !! job_id = Some j -> healthy w -> status j <> "failed" ->
  analysis_reports j = [] ->
  length reports = length (analyzers_to_execute j) -> 1 <= length reports ->
  exists w',
    submit_all job_id reports w = (Ok tt, w') /\
    healthy w' /\
    db w' !! job_id =
      Some (mkJob (spec_terminal_status reports) (analyzers_to_execute j)
                  reports (Some (now w)) (errors j)) /\
    finish_stamps job_id (journal w') = S (finish_stamps job_id (journal w)) /\
    status_updates job_id (journal w') = S (status_updates job_id (journal w)).
Proof.
  intros Hj Hh Hs Hnil Hlen Hpos.
  destruct (exists_last (l := reports)) as (rs & r & ->).
  { intros ->. simpl in Hpos. lia. }
  rewrite length_app in Hlen. simpl in Hlen.
  eexists. split; [apply (submit_all_complete _ _ _ _ _ Hj Hs Hh Hnil); lia|].
  split; [exact Hh|]. simpl. split; [apply lookup_insert_eq|].
  rewrite !finish_stamps_app, !status_updates_app,
    finish_stamps_appends, status_updates_appends,
    finish_stamps_completion, status_updates_completion.
  split; lia.
Qed.

(** C1. A job that is not failed and holds no report yet, with N >= 1 expected
    analyzers, receives one report per analyzer, in any order: every
    submission returns, the job ends in the terminal status that the success
    flags alone decide (without fails when all are true, failed when all are
    false, with fails otherwise), every permutation of the submissions ends
    in the same status, [finished_analysis_time] is stamped exactly once, and
    one more (duplicate) submission neither recomputes the status nor stamps
    the time again. *)
Theorem terminal_status_after_all_reports job_id w j reports :
  db w !! job_id = Some j -> healthy w -> status j <> "failed" ->
  analysis_reports j = [] ->
  length reports = length (analyzers_to_execute j) -> 1 <= length reports ->
  exists w' j',
    submit_all job_id reports w = (Ok tt, w') /\
    db w' !! job_id = Some j' /\
    analysis_reports j' = reports /\
    status j' = spec_terminal_status reports /\
    terminal (status j') /\
    (forall reports', Permutation reports reports' ->
       exists w2 j2, submit_all job_id reports' w = (Ok tt, w2) /\
                     db w2 !! job_id = Some j2 /\ status j2 = status j') /\
    finished_analysis_time j' = Some (now w) /\
    finish_stamps job_id (journal w') = S (finish_stamps job_id (journal w)) /\
    status_updates job_id (journal w') = S (status_updates job_id (journal w)) /\
    (forall dup, exists w'' j'',
       set_report_and_cleanup job_id dup w' = (Ok tt, w'') /\
       db w'' !! job_id = Some j'' /\
       status j'' = status j' /\
       finished_analysis_time j'' = finished_analysis_time j' /\
       finish_stamps job_id (journal w'') = finish_stamps job_id (journal w') /\
       status_updates job_id (journal w'') = status_updates job_id (journal w')).
Proof.
  intros Hj Hh Hs Hnil Hlen Hpos.
  destruct (all_reports_outcome _ _ _ _ Hj Hh Hs Hnil Hlen Hpos)
    as (w' & Hrun & Hh' & Hj' & Hfin & Hupd).
  exists w'. eexists. split; [exact Hrun|]. split; [exact Hj'|]. simpl.
  repeat split; try assumption.
  - apply spec_terminal_status_terminal.
  - intros reports' HP.
    assert (length reports' = length reports) as Hl
      by (symmetry; now apply Permutation_length).
    destruct (all_reports_outcome job_id w j reports') as (w2 & Hrun2 & _ & Hj2 & _);
      try assumption; try lia.
    exists w2. eexists. split; [exact Hrun2|]. split; [exact Hj2|]. simpl.
    now apply spec_terminal_status_perm.
  - intros dup.
    destruct (decide (spec_terminal_status reports = "failed")) as [Hf|Hf].
    + exists w'. eexists. split; [|split; [exact Hj'|repeat split]].
      now apply (submit_failed _ _ _ _ Hj').
    + eexists. eexists. split.
      { apply (submit_pending _ _ _ _ Hj'); simpl; try assumption. lia. }
      simpl. split; [apply lookup_insert_eq|]. simpl. repeat split.
      * rewrite finish_stamps_app. change [(job_id, [F_analysis_reports])] with (repeat (job_id, [F_analysis_reports]) 1).
        rewrite finish_stamps_appends. lia.
      * rewrite status_updates_app. change [(job_id, [F_analysis_reports])] with (repeat (job_id, [F_analysis_reports]) 1).
        rewrite status_updates_appends. lia.
Qed.

Lemma submit_appends job_id report w j :
  db w !! job_id = Some j -> status j <> "failed" -> healthy w ->
  exists w' j',
    set_report_and_cleanup job_id report w = (Ok tt, w') /\
    healthy w' /\
    db w' !! job_id = Some j' /\
    analysis_reports j' = (analysis_reports j ++ [report])%list /\
    analyzers_to_execute j' = analyzers_to_execute j.
Proof.
  intros Hj Hs Hh.
  destruct (decide (S (length (analysis_reports j)) = length (analyzers_to_execute j)))
    as [E|E].
  - eexists. eexists. split; [apply (submit_last _ _ _ _ Hj Hs Hh E)|].
    simpl. split; [exact Hh|]. split; [apply lookup_insert_eq|]. now simpl.
  - eexists. eexists. split; [apply (submit_pending _ _ _ _ Hj Hs Hh E)|].
    simpl. split; [exact Hh|]. split; [apply lookup_insert_eq|]. now simpl.
Qed.

Lemma submit_all_grows job_id reports : forall w j,
  db w !! job_id = Some j -> healthy w ->
  exists w' j',
    submit_all job_id reports w = (Ok tt, w') /\
    healthy w' /\
    db w' !! job_id = Some j' /\
    analyzers_to_execute j' = analyzers_to_execute j /\
    length (analysis_reports j') <= length (analysis_reports j) + length reports.
Proof.
  induction reports as [|r rs IH]; intros w j Hj Hh; simpl.
  - exists w, j. unfold ret. repeat split; try assumption. lia.
  - unfold bind. destruct (decide (status j = "failed")) as [Hs|Hs].
    + rewrite (submit_failed _ _ _ _ Hj Hs Hh).
      destruct (IH w j Hj Hh) as (w' & j' & Hrun & Hh' & Hj' & Ha & Hl).
      exists w', j'. repeat split; try assumption. lia.
    + destruct (submit_appends job_id r w j Hj Hs Hh)
        as (w1 & j1 & Hrun1 & Hh1 & Hj1 & Hr1 & Ha1).
      rewrite Hrun1.
      destruct (IH w1 j1 Hj1 Hh1) as (w' & j' & Hrun & Hh' & Hj' & Ha & Hl).
      exists w', j'. repeat split; try assumption; [congruence|].
      rewrite Hr1, length_app in Hl. simpl in Hl. lia.
Qed.

(** C4, as amended. A job that starts without reports and receives at most
    as many submissions as it has analyzers keeps
    [len(analysis_reports) <= len(analyzers_to_execute)] after every
    submission. Once it is in status failed no further report is appended;
    in any other status the next submission is appended, whatever the two
    lengths are. *)
Theorem reports_bounded_by_submissions job_id w j reports :
  db w !! job_id = Some j -> healthy w ->
  analysis_reports j = [] ->
  length reports <= length (analyzers_to_execute j) ->
  exists w' j',
    submit_all job_id reports w = (Ok tt, w') /\
    db w' !! job_id = Some j' /\
    analyzers_to_execute j' = analyzers_to_execute j /\
    length (analysis_reports j') <= length (analyzers_to_execute j') /\
    (status j' = "failed" ->
       forall more, submit_all job_id more w' = (Ok tt, w')) /\
    (status j' <> "failed" ->
       forall r, exists w'' j'',
         set_report_and_cleanup job_id r w' = (Ok tt, w'') /\
         db w'' !! job_id = Some j'' /\
         analysis_reports j'' = (analysis_reports j' ++ [r])%list).
Proof.
  intros Hj Hh Hnil Hlen.
  destruct (submit_all_grows job_id reports w j Hj Hh)
    as (w' & j' & Hrun & Hh' & Hj' & Ha & Hl).
  exists w', j'. split; [exact Hrun|]. split; [exact Hj'|]. split; [exact Ha|].
  split; [rewrite Ha, Hnil in *; simpl in Hl; lia|]. split.
  - intros Hs more. now apply (submit_all_failed _ _ _ _ Hj' Hs Hh').
  - intros Hs r.
    destruct (submit_appends job_id r w' j' Hj' Hs Hh')
      as (w2 & j2 & Hrun2 & _ & Hj2 & Hr2 & _).
    now exists w2, j2.
Qed.

(** C2, as amended. Submitting to a job whose status is failed, on a store
    that accepts the save of the appended report, returns normally and
    leaves the job as it was: the append is rolled back, and
    [finished_analysis_time], [status] and [errors] keep their values. On a
    store that accepts every write the whole state is as before. *)
Theorem failed_job_is_left_alone job_id report w j :
  db w !! job_id = Some j -> status j = "failed" ->
  accepted 1 (faults w) = true ->
  exists w',
    set_report_and_cleanup job_id report w = (Ok tt, w') /\
    db w' = db w /\ journal w' = journal w /\ now w' = now w /\
    (healthy w -> w' = w).
Proof.
  intros Hj Hs Hacc. destruct w as [d jl fl n ns]. simpl in *.
  destruct fl as [|[m|] fl]; simpl in Hacc; try discriminate.
  - eexists. split.
    + run_submit. rewrite Hj. simpl. rewrite Hj. simpl. rewrite Hs. reflexivity.
    + simpl. repeat split.
  - eexists. split.
    + run_submit. rewrite Hj. simpl. rewrite Hj. simpl. rewrite Hs. reflexivity.
    + simpl. repeat split. unfold healthy. simpl. discriminate.
Qed.

Lemma missing_success_counts_as_failed rs :
  Forall (fun r : pydict => r !! "success" = None) rs ->
  count_failed rs = length rs.
Proof.
  intros HF. rewrite count_failed_filter.
  induction HF as [|r rs Hr HF IH]; simpl; [reflexivity|].
  unfold failed_report at 1, success_flag, dict_get. rewrite Hr. simpl.
  now rewrite IH.
Qed.

(** C10. A report without a [success] key is counted as a failed analyzer:
    when the submission that completes a job finds that no report has the
    key, every report is counted as failed and the job's status is failed. *)
Theorem reports_without_success_key_fail_the_job job_id report w j :
  db w !! job_id = Some j -> healthy w -> status j <> "failed" ->
  S (length (analysis_reports j)) = length (analyzers_to_execute j) ->
  Forall (fun r : pydict => r !! "success" = None) (analysis_reports j ++ [report]) ->
  count_failed (analysis_reports j ++ [report]) = length (analyzers_to_execute j) /\
  exists w' j',
    set_report_and_cleanup job_id report w = (Ok tt, w') /\
    db w' !! job_id = Some j' /\
    analysis_reports j' = (analysis_reports j ++ [report])%list /\
    status j' = "failed".
Proof.
  intros Hj Hh Hs Hlen HF.
  pose proof (missing_success_counts_as_failed _ HF) as Hc.
  split; [rewrite Hc, length_app; simpl; lia|].
  eexists. eexists. split; [apply (submit_last _ _ _ _ Hj Hs Hh Hlen)|].
  simpl. split; [apply lookup_insert_eq|]. simpl. split; [reflexivity|].
  unfold status_to_set. rewrite Hc. now rewrite Nat.eqb_refl.
Qed.

(** ** The handler of unexpected errors *)

Lemma except_block_recovers job_id e w o j :
  class_of e <> AlreadyFailedJobException ->
  db w !! job_id = Some j -> pk o = job_id ->
  accepted 2 (faults w) = true ->
  except_block job_id e (mkFrame w (Some o)) =
    (Ok tt,
     mkFrame
       (mkWorld
          (<[job_id := mkJob "failed" (analyzers_to_execute j) (analysis_reports j)
                             (Some (now w)) (errors j ++ [str e])]> (db w))
          (journal w ++ [(job_id, all_fields); (job_id, [F_finished_analysis_time])])
          (drop 2 (faults w)) (now w) (now_str w))
       (Some (on_row (set_finished_analysis_time (Some (now w))) o))).
Proof.
  intros He Hj Hpk Hacc. destruct w as [d jl fl n ns]. destruct o as [k r]. simpl in *. subst k.
  unfold except_block. rewrite bool_decide_eq_false_2 by exact He.
  run_frame. rewrite Hj. simpl.
  destruct fl as [|[m1|] fl]; simpl in *; try discriminate.
  - rewrite lookup_insert_eq. simpl. rewrite insert_insert_eq, <- app_assoc. reflexivity.
  - destruct fl as [|[m2|] fl]; simpl in *; try discriminate;
      rewrite lookup_insert_eq; simpl; rewrite insert_insert_eq, <- app_assoc; reflexivity.
Qed.


(** What the [try] block leaves behind when it raises. *)
Lemma try_block_raises job_id report w j e fr :
  db w !! job_id = Some j ->
  try_block job_id report (mkFrame w None) = (Raise e, fr) ->
  class_of e <> AlreadyFailedJobException ->
  exists o jr,
    job_object fr = Some o /\ pk o = job_id /\
    now (world fr) = now w /\
    db (world fr) !! job_id = Some jr /\
    errors jr = errors j /\
    analyzers_to_execute jr = analyzers_to_execute j /\
    (analysis_reports jr = analysis_reports j \/
     analysis_reports jr = (analysis_reports j ++ [report])%list).
Proof.
  intros Hj Htry He. destruct w as [d jl fl n ns]. simpl in *.
  revert He. revert Htry. run_frame. rewrite Hj.
  repeat step_try; intros He; try (exfalso; apply He; reflexivity).
  all: eexists; eexists; simpl.
  all: (split; [reflexivity|]); (split; [reflexivity|]); (split; [reflexivity|]).
  all: (split; [reflexivity|]); simpl.
  all: (split; [reflexivity|]); (split; [reflexivity|]).
  all: first [left; reflexivity | right; reflexivity].
Qed.

(** Whatever leaves the [try] block derives from [Exception]. *)
Lemma try_block_raises_exception job_id report w e fr :
  try_block job_id report (mkFrame w None) = (Raise e, fr) ->
  is_exception e = true.
Proof.
  destruct w as [d jl fl n ns].
  destruct (d !! job_id) as [j|] eqn:Hj; run_frame; repeat step_any; reflexivity.
Qed.

(** C5, as amended. Whatever exception other than the already-failed signal
    leaves the [try] block of a submission to an existing job, the handler
    catches it; when the store accepts the handler's own two writes, the job
    ends in status failed with the error text appended to its errors and
    [finished_analysis_time] set to the current time, and the call returns
    normally. *)
Theorem aggregation_error_forces_failed job_id report w j e fr :
  db w !! job_id = Some j ->
  try_block job_id report (mkFrame w None) = (Raise e, fr) ->
  class_of e <> AlreadyFailedJobException ->
  accepted 2 (faults (world fr)) = true ->
  exists w' j',
    set_report_and_cleanup job_id report w = (Ok tt, w') /\
    db w' !! job_id = Some j' /\
    status j' = "failed" /\
    errors j' = (errors j ++ [str e])%list /\
    finished_analysis_time j' = Some (now w) /\
    analyzers_to_execute j' = analyzers_to_execute j /\
    (analysis_reports j' = analysis_reports j \/
     analysis_reports j' = (analysis_reports j ++ [report])%list).
Proof.
  intros Hj Htry He Hacc.
  destruct (try_block_raises _ _ _ _ _ _ Hj Htry He)
    as (o & jr & Ho & Hpk & Hnow & Hjr & Herr & Han & Hrep).
  unfold set_report_and_cleanup, try_except. rewrite Htry.
  rewrite (try_block_raises_exception _ _ _ _ _ Htry).
  destruct fr as [wf jo]. simpl in *. subst jo.
  rewrite (except_block_recovers _ _ _ _ _ He Hjr Hpk Hacc).
  eexists. eexists. split; [reflexivity|]. simpl.
  split; [apply lookup_insert_eq|]. simpl.
  rewrite Herr, Hnow, Han. repeat split. exact Hrep.
Qed.

(** ** The lifecycle runner *)

Lemma submit_returns job_id report w j :
  db w !! job_id = Some j -> healthy w ->
  exists w',
    set_report_and_cleanup job_id report w = (Ok tt, w') /\
    (status j <> "failed" ->
     exists j', db w' !! job_id = Some j' /\
                analysis_reports j' = (analysis_reports j ++ [report])%list).
Proof.
  intros Hj Hh. destruct (decide (status j = "failed")) as [Hs|Hs].
  - exists w. split; [now apply (submit_failed _ _ _ _ Hj)|]. tauto.
  - destruct (submit_appends job_id report w j Hj Hs Hh)
      as (w' & j' & Hrun & _ & Hj' & Hr & _).
    exists w'. split; [exact Hrun|]. intros _. now exists j'.
Qed.

(** What does not derive from [Exception] passes both [except] clauses of
    [start]: no report is finalized or submitted. *)
Lemma start_lets_base_exception_pass a w w1 w2 e :
  before_run a w = (Ok tt, w1) ->
  run a w1 = (Raise e, w2) ->
  is_exception e = false ->
  start a w = (Raise e, w2).
Proof.
  intros Hb Hr He.
  unfold start, bind at 1. rewrite Hb.
  unfold get_basic_report_template, bind at 1.
  unfold try_except_else, bind at 1 2. rewrite Hr, He. reflexivity.
Qed.

(** C3, as amended. Once [before_run] has returned, whenever [run] returns
    or raises an exception that derives from [Exception], [start] builds one
    finalized report and hands it to [set_report_and_cleanup]:
    [process_time] is the time elapsed since the report's [started_time];
    when [run] raises, [success] is false and [errors] holds a message; when
    [run] returns, [success] is true. [start] returns that report without
    raising whenever the submission and [after_run] return, and the
    submission returns whenever the job's row exists and the store accepts
    writes. What [run] raises outside [Exception] ([SystemExit],
    [KeyboardInterrupt]) leaves [start] with no report built or submitted. *)
Theorem start_contains_run_failures (a : Analyzer) (w w1 w2 : World) (r : res value) :
  before_run a w = (Ok tt, w1) ->
  run a w1 = (r, w2) ->
  (ordinary r = true ->
   exists report : pydict,
    start a w =
      (set_report_and_cleanup (job_id a) report ;; after_run a ;; ret report) w2 /\
    report !! "started_time" = Some (VNum (now w1)) /\
    report !! "process_time" = Some (VNum (now w2 - now w1)) /\
    (forall e, r = Raise e ->
       report !! "success" = Some (VBool false) /\
       exists msg, report !! "errors" = Some (VList [VStr msg])) /\
    (forall result, r = Ok result ->
       report !! "success" = Some (VBool true) /\
       report !! "report" = Some result) /\
    (forall w3 w4,
       set_report_and_cleanup (job_id a) report w2 = (Ok tt, w3) ->
       after_run a w3 = (Ok tt, w4) ->
       start a w = (Ok report, w4)) /\
    (forall j, db w2 !! job_id a = Some j -> healthy w2 ->
       exists w3,
         set_report_and_cleanup (job_id a) report w2 = (Ok tt, w3) /\
         (status j <> "failed" ->
          exists j3, db w3 !! job_id a = Some j3 /\
                     analysis_reports j3 = (analysis_reports j ++ [report])%list))) /\
  (forall e, r = Raise e -> is_exception e = false ->
     start a w = (Raise e, w2)).
Proof.
  intros Hb Hr. split.
  2:{ intros e -> He. now apply (start_lets_base_exception_pass a w w1 w2 e). }
  intros Hord.
  enough (exists report : pydict,
    start a w =
      (set_report_and_cleanup (job_id a) report ;; after_run a ;; ret report) w2 /\
    report !! "started_time" = Some (VNum (now w1)) /\
    report !! "process_time" = Some (VNum (now w2 - now w1)) /\
    (forall e, r = Raise e ->
       report !! "success" = Some (VBool false) /\
       exists msg, report !! "errors" = Some (VList [VStr msg])) /\
    (forall result, r = Ok result ->
       report !! "success" = Some (VBool true) /\
       report !! "report" = Some result))
    as (report & Hst & H1 & H2 & H3 & H4).
  { exists report. do 5 (split; [assumption|]). split.
    - intros w3 w4 Hs Ha. rewrite Hst. unfold bind, ret. now rewrite Hs, Ha.
    - intros j Hj Hh. now apply (submit_returns _ _ _ j). }
  unfold start, bind at 1. rewrite Hb.
  unfold get_basic_report_template, bind at 1.
  unfold try_except_else, bind at 1 2. rewrite Hr.
  destruct r as [result|e].
  - eexists. split; [unfold ret, time_time, gets, lift_res, bind at 1 2 3; simpl; reflexivity|].
    split; [reflexivity|]. split; [reflexivity|].
    split; [discriminate|]. intros ? [= <-]. split; reflexivity.
  - simpl in Hord. rewrite Hord. destruct (is_analyzer_exception e).
    + eexists. split;
        [unfold _handle_analyzer_exception, ret, time_time, gets, lift_res, bind at 1 2 3 4 5;
         simpl; reflexivity|].
      split; [reflexivity|]. split; [reflexivity|].
      split; [|discriminate]. intros ? _. split; [reflexivity|].
      eexists. reflexivity.
    + eexists. split;
        [unfold _handle_base_exception, ret, time_time, gets, lift_res, bind at 1 2 3 4 5;
         simpl; reflexivity|].
      split; [reflexivity|]. split; [reflexivity|].
      split; [|discriminate]. intros ? _. split; [reflexivity|].
      eexists. reflexivity.
Qed.

(** ** The polling client *)

Section Polling.
Variable a : DockerBasedAnalyzer.
Variable req_key : string.

Lemma after_queries_next k n :
  after_queries a k (next_chance a n) = after_queries a (S k) n.
Proof. unfold after_queries, next_chance. simpl. f_equal; lia. Qed.

Lemma after_queries_first n : next_chance a n = after_queries a 1 n.
Proof. unfold after_queries, next_chance. f_equal; lia. Qed.

Lemma poll_loop_skip c rest st n code d :
  worker n (query_url a req_key) (asked n) = Answer code d ->
  in_terminal_set (dict_get d "status" VNone) = false ->
  poll_loop a req_key (c :: rest) st n =
  poll_loop a req_key rest (mkPollLocals (got_result st) (Some d)) (next_chance a n).
Proof.
  unfold query_url. intros E T. poll_step. rewrite E. simpl. now rewrite T.
Qed.

Lemma poll_loop_break c rest st n code d :
  worker n (query_url a req_key) (asked n) = Answer code d ->
  in_terminal_set (dict_get d "status" VNone) = true ->
  poll_loop a req_key (c :: rest) st n =
  (Ok (mkPollLocals true (Some d)), next_chance a n).
Proof.
  unfold query_url. intros E T. poll_step. rewrite E. simpl. now rewrite T.
Qed.

Lemma poll_loop_raise c rest st n e :
  worker n (query_url a req_key) (asked n) = Failure e ->
  poll_loop a req_key (c :: rest) st n =
  (Raise (if is_request_exception e
          then Exn AnalyzerRunException (str e) else e), next_chance a n).
Proof.
  unfold query_url. intros E. poll_step. rewrite E.
  destruct e as [[] msg]; reflexivity.
Qed.

Lemma pending_reply_inv r :
  pending_reply r = true ->
  exists code d, r = Answer code d /\
                 in_terminal_set (dict_get d "status" VNone) = false.
Proof.
  destruct r as [code d|e]; simpl; [|discriminate].
  intros H. apply negb_true_iff in H. now exists code, d.
Qed.

(** The loop spends one chance on every answer outside the terminal set. *)
Lemma poll_loop_pending_prefix k : forall chances st n,
  k <= length chances ->
  (forall i, i < k ->
     pending_reply (worker n (query_url a req_key) (asked n + i)) = true) ->
  exists jd,
    poll_loop a req_key chances st n =
    poll_loop a req_key (drop k chances) (mkPollLocals (got_result st) jd)
              (after_queries a k n).
Proof.
  induction k as [|k IH]; intros chances st n Hk Hp.
  - exists (json_data st). rewrite drop_0. f_equal.
    + now destruct st.
    + unfold after_queries. destruct n; simpl. f_equal; lia.
  - destruct chances as [|c rest]; [simpl in Hk; lia|].
    destruct (pending_reply_inv _ (Hp 0 ltac:(lia))) as (code & d & E & T).
    rewrite Nat.add_0_r in E.
    rewrite (poll_loop_skip _ _ _ _ _ _ E T).
    destruct (IH rest (mkPollLocals (got_result st) (Some d)) (next_chance a n))
      as (jd & Hjd).
    { simpl in Hk. lia. }
    { intros i Hi. simpl. rewrite <- Nat.add_succ_r. apply Hp. lia. }
    exists jd. rewrite Hjd. simpl. now rewrite after_queries_next.
Qed.

Lemma next_after_queries k n :
  next_chance a (after_queries a k n) = after_queries a (S k) n.
Proof. unfold after_queries, next_chance. simpl. f_equal; lia. Qed.

(** The loop up to its decisive chance: [k] answers outside the terminal
    set, then the chance numbered [k]. *)
Lemma poll_loop_reaches k n :
  (Z.of_nat k < max_tries a)%Z ->
  (forall i, i < k ->
     pending_reply (worker n (query_url a req_key) (asked n + i)) = true) ->
  exists jd c rest,
    poll_loop a req_key (seq 0 (Z.to_nat (max_tries a))) (mkPollLocals false None) n
    = poll_loop a req_key (c :: rest) (mkPollLocals false jd) (after_queries a k n).
Proof.
  intros Hk Hp.
  destruct (poll_loop_pending_prefix k (seq 0 (Z.to_nat (max_tries a)))
              (mkPollLocals false None) n) as (jd & Hjd).
  { rewrite length_seq. lia. }
  { exact Hp. }
  destruct (drop k (seq 0 (Z.to_nat (max_tries a)))) as [|c rest] eqn:E.
  - apply (f_equal length) in E. rewrite length_drop, length_seq in E.
    simpl in E. lia.
  - exists jd, c, rest. exact Hjd.
Qed.

Lemma poll_returns_at n k code d :
  (Z.of_nat k < max_tries a)%Z ->
  (forall i, i < k ->
     pending_reply (worker n (query_url a req_key) (asked n + i)) = true) ->
  worker n (query_url a req_key) (asked n + k) = Answer code d ->
  in_terminal_set (dict_get d "status" VNone) = true ->
  _poll_for_result a req_key n = (Ok d, after_queries a (S k) n).
Proof.
  intros Hk Hp E T.
  destruct (poll_loop_reaches k n Hk Hp) as (jd & c & rest & Hrun).
  unfold _poll_for_result, bind. rewrite Hrun.
  rewrite (poll_loop_break c rest _ (after_queries a k n) code d E T).
  simpl. now rewrite next_after_queries.
Qed.

(** C6. With [max_tries >= 1], when every query of the budget is answered
    and no answer carries a status of the terminal set, [_poll_for_result]
    raises an [AnalyzerRunException] saying that the polls were used up, and
    exactly [max_tries] queries were made. *)
Theorem poll_budget_exhausted n :
  (1 <= max_tries a)%Z ->
  (forall i, i < Z.to_nat (max_tries a) ->
     pending_reply (worker n (query_url a req_key) (asked n + i)) = true) ->
  exists e n',
    _poll_for_result a req_key n = (Raise e, n') /\
    class_of e = AnalyzerRunException /\
    str e = "max " +:+ docker_name a +:+ " polls tried without getting any result."
              +:+ "job_id:" +:+ pretty (docker_job_id a) /\
    Z.of_nat (asked n') = (Z.of_nat (asked n) + max_tries a)%Z.
Proof.
  intros Hm Hp.
  destruct (poll_loop_pending_prefix (Z.to_nat (max_tries a))
              (seq 0 (Z.to_nat (max_tries a))) (mkPollLocals false None) n)
    as (jd & Hjd).
  { now rewrite length_seq. }
  { exact Hp. }
  rewrite drop_ge in Hjd by now rewrite length_seq.
  eexists. eexists. split.
  - unfold _poll_for_result, bind. rewrite Hjd. simpl. reflexivity.
  - simpl. repeat split. lia.
Qed.

(** C7. [_poll_for_result] returns the payload of the first answer whose
    status is in the terminal set, and that query is the last one it makes.
    In particular with [max_tries = 3] and a worker that answers a
    non-terminal status twice and then "success", it returns the third
    payload after exactly 3 queries. *)
Theorem poll_returns_first_terminal n :
  (forall k code d,
     (Z.of_nat k < max_tries a)%Z ->
     (forall i, i < k ->
        pending_reply (worker n (query_url a req_key) (asked n + i)) = true) ->
     worker n (query_url a req_key) (asked n + k) = Answer code d ->
     in_terminal_set (dict_get d "status" VNone) = true ->
     exists n',
       _poll_for_result a req_key n = (Ok d, n') /\ asked n' = asked n + S k) /\
  (max_tries a = 3%Z ->
   forall c1 d1 c2 d2 c3 d3,
     worker n (query_url a req_key) (asked n) = Answer c1 d1 ->
     worker n (query_url a req_key) (asked n + 1) = Answer c2 d2 ->
     worker n (query_url a req_key) (asked n + 2) = Answer c3 d3 ->
     in_terminal_set (dict_get d1 "status" VNone) = false ->
     in_terminal_set (dict_get d2 "status" VNone) = false ->
     d3 !! "status" = Some (VStr "success") ->
     exists n',
       _poll_for_result a req_key n = (Ok d3, n') /\ asked n' = asked n + 3).
Proof.
  split.
  - intros k code d Hk Hp E T. eexists. split.
    + apply (poll_returns_at n k code d Hk Hp E T).
    + reflexivity.
  - intros Hm c1 d1 c2 d2 c3 d3 E1 E2 E3 T1 T2 T3. eexists. split.
    + apply (poll_returns_at n 2 c3 d3); [lia | | exact E3 |].
      * intros i Hi. destruct i as [|[|i]]; [| |lia].
        -- rewrite Nat.add_0_r, E1. simpl. now rewrite T1.
        -- rewrite E2. simpl. now rewrite T2.
      * unfold dict_get. now rewrite T3.
    + reflexivity.
Qed.

(** C8. When a query raises an exception of the [requests] library,
    [_poll_for_result] raises an [AnalyzerRunException] carrying that error,
    and the failing query is the last one it makes. *)
Theorem poll_transport_error_is_final n k e :
  (Z.of_nat k < max_tries a)%Z ->
  (forall i, i < k ->
     pending_reply (worker n (query_url a req_key) (asked n + i)) = true) ->
  worker n (query_url a req_key) (asked n + k) = Failure e ->
  is_request_exception e = true ->
  exists n',
    _poll_for_result a req_key n =
      (Raise (Exn AnalyzerRunException (str e)), n') /\
    asked n' = asked n + S k.
Proof.
  intros Hk Hp E T.
  destruct (poll_loop_reaches k n Hk Hp) as (jd & c & rest & Hrun).
  eexists. split.
  - unfold _poll_for_result, bind. rewrite Hrun.
    rewrite (poll_loop_raise c rest _ (after_queries a k n) e E). rewrite T.
    now rewrite next_after_queries.
  - reflexivity.
Qed.
End Polling.

(** ** Error translation *)

Lemma raise_for_status_error req :
  (400 <= resp_status_code req < 600)%Z ->
  exists e, raise_for_status req = Raise e /\ class_of e = HTTPError.
Proof.
  intros H. unfold raise_for_status.
  destruct (400 <=? resp_status_code req)%Z eqn:A,
           (resp_status_code req <? 500)%Z eqn:B; simpl;
    try (eexists; split; reflexivity); try lia.
  destruct (500 <=? resp_status_code req)%Z eqn:C,
           (resp_status_code req <? 600)%Z eqn:D; simpl;
    try (eexists; split; reflexivity); lia.
Qed.

Lemma raise_for_status_ok req :
  (resp_status_code req < 400 \/ 600 <= resp_status_code req)%Z ->
  raise_for_status req = Ok tt.
Proof.
  intros H. unfold raise_for_status.
  destruct (400 <=? resp_status_code req)%Z eqn:A,
           (resp_status_code req <? 500)%Z eqn:B; simpl; try lia;
  destruct (500 <=? resp_status_code req)%Z eqn:C,
           (resp_status_code req <? 600)%Z eqn:D; simpl; try reflexivity; lia.
Qed.

Lemma raise_for_status_verdict req req' :
  resp_status_code req' = resp_status_code req ->
  match raise_for_status req, raise_for_status req' with
  | Ok _, Ok _ => True
  | Raise e, Raise e' => class_of e = class_of e'
  | _, _ => False
  end.
Proof.
  intros E. unfold raise_for_status. rewrite E.
  destruct ((400 <=? _)%Z && (_ <? 500)%Z); [reflexivity|].
  destruct ((500 <=? _)%Z && (_ <? 600)%Z); [reflexivity|exact I].
Qed.

Lemma raise_for_status_class req e :
  raise_for_status req = Raise e -> class_of e = HTTPError.
Proof.
  unfold raise_for_status.
  destruct ((400 <=? _)%Z && (_ <? 500)%Z); [now intros [= <-]|].
  destruct ((500 <=? _)%Z && (_ <? 600)%Z); [now intros [= <-]|discriminate].
Qed.

(** C9. [_check_status_code] fails with "docker container is not running"
    on 404, fails on 400 (with the body's error message when it has one),
    fails with "Internal Server Error" on 500, fails with the library's
    [HTTPError] on every other code from 400 to 599, and returns true on
    every other code; two responses with the same status code and body get
    the same verdict, and the same result unless it is the library's
    [HTTPError], whose text names the URL. *)
Theorem check_status_code_mapping name req :
  (resp_status_code req = 404%Z ->
   _check_status_code name req =
     Raise (Exn AnalyzerRunException (name +:+ " docker container is not running."))) /\
  (resp_status_code req = 400%Z ->
   is_ok (_check_status_code name req) = false /\
   forall d err, resp_body req = Some d -> d !! "error" = Some err ->
     _check_status_code name req = Raise (Exn AnalyzerRunException (py_str err))) /\
  (resp_status_code req = 500%Z ->
   _check_status_code name req =
     Raise (Exn AnalyzerRunException
              ("Internal Server Error in " +:+ name +:+ " docker container"))) /\
  (resp_status_code req <> 404%Z -> resp_status_code req <> 400%Z ->
   resp_status_code req <> 500%Z ->
   (400 <= resp_status_code req < 600)%Z ->
   exists e, _check_status_code name req = Raise e /\ class_of e = HTTPError) /\
  ((resp_status_code req < 400 \/ 600 <= resp_status_code req)%Z ->
   _check_status_code name req = Ok true) /\
  (forall req',
     resp_status_code req' = resp_status_code req ->
     resp_body req' = resp_body req ->
     verdict (_check_status_code name req') = verdict (_check_status_code name req) /\
     (verdict (_check_status_code name req) <> Some HTTPError ->
      _check_status_code name req' = _check_status_code name req)).
Proof.
  unfold _check_status_code.
  repeat apply conj.
  - intros ->. reflexivity.
  - intros E. rewrite E. simpl. unfold json, getitem. split.
    + destruct (resp_body req) as [d|]; [destruct (d !! "error")|]; reflexivity.
    + intros d err Hb He. now rewrite Hb, He.
  - intros ->. reflexivity.
  - intros H1 H2 H3 Hr.
    destruct (Z.eqb_spec (resp_status_code req) 404); [contradiction|].
    destruct (Z.eqb_spec (resp_status_code req) 400); [contradiction|].
    destruct (Z.eqb_spec (resp_status_code req) 500); [contradiction|].
    destruct (raise_for_status_error req Hr) as (e & -> & He). now exists e.
  - intros Hr.
    destruct (Z.eqb_spec (resp_status_code req) 404); [lia|].
    destruct (Z.eqb_spec (resp_status_code req) 400); [lia|].
    destruct (Z.eqb_spec (resp_status_code req) 500); [lia|].
    now rewrite (raise_for_status_ok req Hr).
  - intros req' Hc Hb. unfold json. rewrite Hc, Hb.
    destruct (resp_status_code req =? 404)%Z; [now split|].
    destruct (resp_status_code req =? 400)%Z; [now split|].
    destruct (resp_status_code req =? 500)%Z; [now split|].
    pose proof (raise_for_status_verdict req req' Hc) as Hv.
    destruct (raise_for_status req) as [[]|e] eqn:Er,
             (raise_for_status req') as [[]|e'] eqn:Er';
      simpl; try contradiction.
    + now split.
    + split; [congruence|]. intros Hn. exfalso. apply Hn.
      now rewrite (raise_for_status_class req e Er).
Qed.

(** ** Counterexamples *)

(** C3 as stated fails: an exception raised by [before_run] leaves [start];
    no report is built or submitted. *)
Lemma start_lets_before_run_failure_escape :
  start demo_bad_hook (demo_world ["a"] []) =
    (Raise (Exn OtherException "hook failed"), demo_world ["a"] []).
Proof. reflexivity. Qed.

(** C2 as stated fails: the report is saved before the status is tested, so
    when the store refuses that save for a failed job the handler of
    unexpected errors runs: it appends to the job's errors and overwrites
    [finished_analysis_time]; when its own write is refused as well, the
    call raises. *)
Lemma failed_job_touched_when_save_refused :
  (exists w' j',
     set_report_and_cleanup 7 demo_ok
       (mkWorld (<[7%Z := mkJob "failed" ["a"; "b"] [demo_failing] None []]> ∅)
                [] [Some "db down"] 100 "2020-01-01 00:00:00")
       = (Ok tt, w') /\
     db w' !! 7%Z = Some j' /\
     errors j' = ["db down"] /\
     finished_analysis_time j' = Some 100%Z) /\
  (exists w',
     set_report_and_cleanup 7 demo_ok
       (mkWorld (<[7%Z := mkJob "failed" ["a"; "b"] [demo_failing] None []]> ∅)
                [] [Some "db down"; Some "db still down"] 100 "2020-01-01 00:00:00")
       = (Raise (Exn DatabaseError "db still down"), w')).
Proof.
  split.
  - eexists. eexists.
    split; [vm_compute; reflexivity|].
    split; [vm_compute; reflexivity|].
    split; reflexivity.
  - eexists. vm_compute. reflexivity.
Qed.

(** C4 as stated fails: a job with one analyzer is complete after the first
    submission (both lengths are 1, status reported_without_fails); the
    second submission is appended all the same, and the job then holds more
    reports than it has analyzers. *)
Lemma report_appended_beyond_expected_count :
  exists w1 j1 w2 j2,
    set_report_and_cleanup 7 demo_ok (demo_world ["a"] []) = (Ok tt, w1) /\
    db w1 !! 7%Z = Some j1 /\
    length (analysis_reports j1) = length (analyzers_to_execute j1) /\
    set_report_and_cleanup 7 demo_ok w1 = (Ok tt, w2) /\
    db w2 !! 7%Z = Some j2 /\
    analysis_reports j2 = (analysis_reports j1 ++ [demo_ok])%list /\
    length (analyzers_to_execute j2) < length (analysis_reports j2).
Proof.
  eexists. eexists. eexists. eexists.
  split; [vm_compute; reflexivity|].
  split; [vm_compute; reflexivity|].
  split; [reflexivity|].
  split; [vm_compute; reflexivity|].
  split; [vm_compute; reflexivity|].
  split; [reflexivity|].
  simpl. lia.
Qed.

(** C5 as stated fails: the store refuses the write of [set_job_status] while
    the terminal status is persisted, and refuses the handler's write as
    well; the second error leaves [set_report_and_cleanup], and the job is
    neither failed nor stamped, nor is any error recorded. *)
Lemma recovery_failure_escapes :
  exists e fr w' j',
    try_block 7 demo_ok
      (mkFrame (demo_world ["a"] [None; Some "db down"; Some "db still down"]) None)
      = (Raise e, fr) /\
    class_of e <> AlreadyFailedJobException /\
    set_report_and_cleanup 7 demo_ok
      (demo_world ["a"] [None; Some "db down"; Some "db still down"])
      = (Raise (Exn DatabaseError "db still down"), w') /\
    db w' !! 7%Z = Some j' /\
    status j' = "running" /\
    errors j' = [] /\
    finished_analysis_time j' = None.
Proof.
  eexists. eexists. eexists. eexists.
  split; [vm_compute; reflexivity|].
  split; [discriminate|].
  split; [vm_compute; reflexivity|].
  split; [vm_compute; reflexivity|].
  repeat split.
Qed.

(** ** The theorems at work on sample data *)

Lemma terminal_status_after_all_reports_demo :
  exists w' j',
    submit_all 7 [demo_ok; demo_failing] (demo_world ["a"; "b"] []) = (Ok tt, w') /\
    db w' !! 7%Z = Some j' /\
    status j' = "reported_with_fails" /\
    finished_analysis_time j' = Some 100%Z.
Proof.
  destruct (terminal_status_after_all_reports 7 (demo_world ["a"; "b"] [])
              (demo_job ["a"; "b"]) [demo_ok; demo_failing])
    as (w' & j' & Hrun & Hj & _ & Hst & _ & _ & Hfin & _).
  - reflexivity.
  - reflexivity.
  - discriminate.
  - reflexivity.
  - reflexivity.
  - simpl. lia.
  - exists w', j'. split; [exact Hrun|]. split; [exact Hj|].
    split; [rewrite Hst; reflexivity | exact Hfin].
Defined.

Lemma failed_job_is_left_alone_demo :
  exists w',
    set_report_and_cleanup 7 demo_ok
      (mkWorld (<[7%Z := mkJob "failed" ["a"; "b"] [demo_failing] None []]> ∅)
               [] [None; Some "db down"] 100 "2020-01-01 00:00:00")
    = (Ok tt, w') /\
    db w' !! 7%Z = Some (mkJob "failed" ["a"; "b"] [demo_failing] None []) /\
    journal w' = [].
Proof.
  destruct (failed_job_is_left_alone 7 demo_ok
              (mkWorld (<[7%Z := mkJob "failed" ["a"; "b"] [demo_failing] None []]> ∅)
                       [] [None; Some "db down"] 100 "2020-01-01 00:00:00")
              (mkJob "failed" ["a"; "b"] [demo_failing] None []))
    as (w' & Hrun & Hdb & Hjl & _).
  - reflexivity.
  - reflexivity.
  - reflexivity.
  - exists w'. split; [exact Hrun|]. rewrite Hdb, Hjl. split; reflexivity.
Defined.

Lemma start_contains_run_failures_demo :
  exists report : pydict,
    start demo_raising (demo_world ["a"] []) =
      (set_report_and_cleanup 7 report ;; after_run demo_raising ;; ret report)
        (advance 5 (demo_world ["a"] [])) /\
    report !! "process_time" = Some (VNum 5) /\
    report !! "success" = Some (VBool false) /\
    exists msg, report !! "errors" = Some (VList [VStr msg]).
Proof.
  destruct (start_contains_run_failures demo_raising (demo_world ["a"] [])
              (demo_world ["a"] []) (advance 5 (demo_world ["a"] []))
              (Raise (Exn AnalyzerRunException "unreachable host")))
    as [Hcontained _].
  - reflexivity.
  - reflexivity.
  - destruct (Hcontained eq_refl) as (report & Hst & _ & Hpt & Hraise & _).
    exists report. split; [exact Hst|]. split; [exact Hpt|].
    exact (Hraise _ eq_refl).
Defined.

Lemma reports_bounded_by_submissions_demo :
  exists w' j',
    submit_all 7 [demo_ok] (demo_world ["a"; "b"] []) = (Ok tt, w') /\
    db w' !! 7%Z = Some j' /\
    length (analysis_reports j') <= length (analyzers_to_execute j').
Proof.
  destruct (reports_bounded_by_submissions 7 (demo_world ["a"; "b"] [])
              (demo_job ["a"; "b"]) [demo_ok])
    as (w' & j' & Hrun & Hj & _ & Hle & _).
  - reflexivity.
  - reflexivity.
  - reflexivity.
  - simpl. lia.
  - now exists w', j'.
Defined.

Lemma aggregation_error_forces_failed_demo :
  exists w' j',
    set_report_and_cleanup 7 demo_ok (demo_world ["a"] [None; Some "db down"])
      = (Ok tt, w') /\
    db w' !! 7%Z = Some j' /\
    status j' = "failed" /\
    errors j' = ["db down"] /\
    finished_analysis_time j' = Some 100%Z.
Proof.
  edestruct (aggregation_error_forces_failed 7 demo_ok
               (demo_world ["a"] [None; Some "db down"]) (demo_job ["a"]))
    as (w' & j' & Hrun & Hj & Hst & Herr & Hfin & _).
  - reflexivity.
  - vm_compute. reflexivity.
  - discriminate.
  - reflexivity.
  - exists w', j'. repeat split; assumption.
Defined.

Lemma poll_budget_exhausted_demo :
  exists e n',
    _poll_for_result demo_docker "k" (mkNet demo_slow_worker 0 0) = (Raise e, n') /\
    class_of e = AnalyzerRunException /\
    asked n' = 3.
Proof.
  destruct (poll_budget_exhausted demo_docker "k" (mkNet demo_slow_worker 0 0))
    as (e & n' & Hrun & Hc & _ & Hn).
  - simpl. lia.
  - intros i _. reflexivity.
  - exists e, n'. split; [exact Hrun|]. split; [exact Hc|]. simpl in Hn. lia.
Defined.

Lemma poll_returns_first_terminal_demo :
  exists n',
    _poll_for_result demo_docker "k" (mkNet demo_worker 0 0) = (Ok demo_done, n') /\
    asked n' = 3.
Proof.
  destruct (poll_returns_first_terminal demo_docker "k" (mkNet demo_worker 0 0))
    as [_ Hthree].
  apply (Hthree eq_refl 200%Z demo_running 200%Z demo_running 200%Z demo_done);
    reflexivity.
Defined.

Lemma poll_transport_error_is_final_demo :
  exists n',
    _poll_for_result demo_docker "k" (mkNet demo_broken_worker 0 0) =
      (Raise (Exn AnalyzerRunException "Connection refused"), n') /\
    asked n' = 2.
Proof.
  apply (poll_transport_error_is_final demo_docker "k"
           (mkNet demo_broken_worker 0 0) 1
           (Exn RequestException "Connection refused")).
  - simpl. lia.
  - intros i Hi. destruct i as [|i]; [reflexivity | lia].
  - reflexivity.
  - reflexivity.
Defined.

Lemma check_status_code_mapping_demo :
  _check_status_code "PEframe" demo_bad_request =
    Raise (Exn AnalyzerRunException "no file given").
Proof.
  destruct (check_status_code_mapping "PEframe" demo_bad_request)
    as (_ & H400 & _).
  destruct (H400 eq_refl) as [_ Hmsg].
  apply (Hmsg (<["error" := VStr "no file given"]> ∅) (VStr "no file given"));
    reflexivity.
Defined.

Lemma reports_without_success_key_fail_the_job_demo :
  exists w' j',
    set_report_and_cleanup 7 demo_bare
      (mkWorld (<[7%Z := mkJob "running" ["c"; "d"] [demo_bare] None []]> ∅)
               [] [] 100 "2020-01-01 00:00:00")
    = (Ok tt, w') /\
    db w' !! 7%Z = Some j' /\
    status j' = "failed".
Proof.
  destruct (reports_without_success_key_fail_the_job 7 demo_bare
              (mkWorld (<[7%Z := mkJob "running" ["c"; "d"] [demo_bare] None []]> ∅)
                       [] [] 100 "2020-01-01 00:00:00")
              (mkJob "running" ["c"; "d"] [demo_bare] None []))
    as (_ & w' & j' & Hrun & Hj & _ & Hst).
  - reflexivity.
  - reflexivity.
  - discriminate.
  - reflexivity.
  - repeat constructor.
  - now exists w', j'.
Defined.

(** * Further properties of the code *)

(** ** The aggregator under any fault plan *)

(** X1. Whatever the store refuses and however the call ends, a submission
    keeps the job's row, leaves [analyzers_to_execute] as it is, and either
    leaves [analysis_reports] as it is or appends exactly the submitted
    report: no stored report is ever dropped or changed. *)
Theorem submission_keeps_own_row_shape job_id report w j r w' :
  db w !! job_id = Some j ->
  set_report_and_cleanup job_id report w = (r, w') ->
  exists j',
    db w' !! job_id = Some j' /\
    analyzers_to_execute j' = analyzers_to_execute j /\
    (analysis_reports j' = analysis_reports j \/
     analysis_reports j' = (analysis_reports j ++ [report])%list).
Proof.
  intros Hj. destruct w as [d jl fl n ns]. simpl in Hj.
  run_submit. 
  repeat step_any.
  all: eexists; (split; [rewrite ?insert_insert_eq;
                          first [exact Hj | apply lookup_insert_eq | reflexivity]|]).
  all: simpl; split; [reflexivity|].
  all: first [left; reflexivity | right; reflexivity].
Qed.

(** X2. Whatever the store refuses and however the call ends, a submission
    for one job changes no other job's row. *)
Theorem submission_leaves_other_jobs_alone job_id report w r w' other :
  other <> job_id ->
  set_report_and_cleanup job_id report w = (r, w') ->
  db w' !! other = db w !! other.
Proof.
  intros Hne. destruct w as [d jl fl n ns]. simpl.
  destruct (d !! job_id) as [j|] eqn:Hj.
  - run_submit. repeat step_any.
    all: simpl; rewrite ?lookup_insert_ne by congruence; reflexivity.
  - run_submit. repeat step_any. all: reflexivity.
Qed.

(** ** The status setter, and submissions that meet *)

(** X3. When the store accepts the write, [set_job_status] replaces the
    status, appends the given errors (nothing for [None] or an empty list),
    keeps every other column of the row, and leaves the clock alone. *)
Theorem set_job_status_effect job_id new_status errs w j :
  db w !! job_id = Some j ->
  accepted 1 (faults w) = true ->
  exists w',
    set_job_status job_id new_status errs w = (Ok tt, w') /\
    db w' = <[job_id := mkJob new_status (analyzers_to_execute j)
                              (analysis_reports j) (finished_analysis_time j)
                              (errors j ++ default [] errs)]> (db w) /\
    now w' = now w.
Proof.
  intros Hj Hacc. destruct w as [d jl fl n ns]. simpl in *.
  unfold set_job_status, bind, object_by_job_id, save. simpl. rewrite Hj. simpl.
  destruct fl as [|[m|] fl]; simpl in *; try discriminate;
    (destruct errs as [[|e es]|]; simpl; rewrite ?app_nil_r;
     eexists; (split; [reflexivity|]); (split; [now destruct j | reflexivity])).
Qed.



(** X5. When the store refuses the write of the appended report and accepts
    the handler's two writes, the report is not stored, and the job is set to
    failed with the store's message appended to its errors and
    [finished_analysis_time] set. *)
Theorem refused_append_is_rolled_back job_id report w j msg rest :
  db w !! job_id = Some j ->
  faults w = Some msg :: rest ->
  accepted 2 rest = true ->
  exists w',
    set_report_and_cleanup job_id report w = (Ok tt, w') /\
    db w' !! job_id =
      Some (mkJob "failed" (analyzers_to_execute j) (analysis_reports j)
                  (Some (now w)) (errors j ++ [msg])).
Proof.
  intros Hj Hf Hacc. destruct w as [d jl fl n ns]. simpl in *. subst fl.
  run_submit. rewrite Hj. simpl. rewrite Hj. simpl.
  destruct rest as [|[m1|] rest]; simpl in *; try discriminate.
  - rewrite lookup_insert_eq. simpl. eexists. split; [reflexivity|].
    simpl. now rewrite lookup_insert_eq.
  - destruct rest as [|[m2|] rest]; simpl in *; try discriminate;
      rewrite lookup_insert_eq; simpl; (eexists; split; [reflexivity|]);
      simpl; now rewrite lookup_insert_eq.
Qed.

(** ** The status computation and partial progress *)

Lemma filter_failed_perm rs rs' :
  Permutation rs rs' ->
  length (List.filter failed_report rs) = length (List.filter failed_report rs').
Proof.
  induction 1; simpl; try congruence.
  - destruct (failed_report x); simpl; congruence.
  - destruct (failed_report x), (failed_report y); reflexivity.
Qed.

(** X6. The status that the completing submission computes does not depend on
    the order of the reports and is always terminal; it is failed exactly when
    every report counts as failed (so also for no report at all), and
    reported_without_fails exactly when there is a report and none counts
    as failed. *)
Theorem status_to_set_characterised rs :
  (forall rs', Permutation rs rs' -> status_to_set rs' = status_to_set rs) /\
  terminal (status_to_set rs) /\
  (status_to_set rs = "failed" <-> forallb failed_report rs = true) /\
  (status_to_set rs = "reported_without_fails" <->
     rs <> [] /\ forallb success_flag rs = true).
Proof.
  split; [|split; [|split]].
  - intros rs' HP. unfold status_to_set. rewrite !count_failed_filter.
    now rewrite <- (filter_failed_perm _ _ HP), <- (Permutation_length HP).
  - unfold terminal, status_to_set.
    destruct (_ =? _)%nat; [tauto|]. destruct (_ <=? _)%nat; tauto.
  - unfold status_to_set. rewrite count_failed_filter.
    rewrite <- (all_failed_iff rs).
    destruct (Nat.eqb_spec (length (List.filter failed_report rs)) (length rs)) as [E|E].
    + tauto.
    + split; [|tauto]. destruct (_ <=? _)%nat; discriminate.
  - unfold status_to_set. rewrite count_failed_filter.
    rewrite <- (none_failed_iff rs).
    destruct (Nat.eqb_spec (length (List.filter failed_report rs)) (length rs)) as [E|E].
    + split; [discriminate|]. intros [Hne E0]. rewrite E0 in E.
      destruct rs; [congruence | discriminate].
    + destruct (Nat.leb_spec 1 (length (List.filter failed_report rs))) as [Hl|Hl].
      * split; [discriminate|]. intros [_ E0]. lia.
      * split; [|reflexivity]. intros _. split; [|lia].
        intros ->. simpl in E. congruence.
Qed.

Lemma status_to_set_snoc rs r :
  status_to_set (rs ++ [r]) =
    if success_flag r
    then (if forallb success_flag rs then "reported_without_fails"
          else "reported_with_fails")
    else (if forallb failed_report rs then "failed"
          else "reported_with_fails").
Proof.
  rewrite status_to_set_spec by (destruct rs; discriminate).
  unfold spec_terminal_status. rewrite !forallb_app. simpl.
  unfold failed_report.
  destruct (success_flag r); simpl; rewrite ?andb_true_r, ?andb_false_r.
  - destruct (forallb success_flag rs); reflexivity.
  - destruct (forallb _ rs); reflexivity.
Qed.

(** X7. As long as the job is not failed and reports are still missing after
    them, submissions are stored in the order they are made, behind the
    reports already there; status, [finished_analysis_time] and errors stay
    as they are and the journal shows no status update and no stamp. *)
Theorem reports_kept_in_submission_order job_id reports w j :
  db w !! job_id = Some j -> status j <> "failed" -> healthy w ->
  length (analysis_reports j) + length reports < length (analyzers_to_execute j) ->
  exists w' j',
    submit_all job_id reports w = (Ok tt, w') /\
    db w' !! job_id = Some j' /\
    analysis_reports j' = (analysis_reports j ++ reports)%list /\
    status j' = status j /\
    finished_analysis_time j' = finished_analysis_time j /\
    errors j' = errors j /\
    finish_stamps job_id (journal w') = finish_stamps job_id (journal w) /\
    status_updates job_id (journal w') = status_updates job_id (journal w).
Proof.
  intros Hj Hs Hh Hlen.
  eexists. eexists. split; [apply (submit_all_pending _ _ _ _ Hj Hs Hh Hlen)|].
  simpl. split; [apply lookup_insert_eq|]. simpl.
  rewrite finish_stamps_app, status_updates_app,
    finish_stamps_appends, status_updates_appends.
  repeat split; lia.
Qed.

Lemma set_failed_analyzer_unfold analyzer_name job_id error_message w :
  set_failed_analyzer analyzer_name job_id error_message w =
  set_report_and_cleanup job_id
    (<["errors" := VList [VStr error_message]]>
       (<["name" := VStr analyzer_name]>
       (<["success" := VBool false]>
       (<["report" := VDict []]>
       (<["errors" := VList []]>
       (<["process_time" := VNum 0]>
       (<["started_time" := VNum (now w)]>
       (<["started_time_str" := VStr (now_str w)]> ∅)))))))) w.
Proof. reflexivity. Qed.

(** X8. [set_failed_analyzer] hands in the template with the error message as
    its only error: for a job that is not failed the report is stored with
    [success] false and [process_time] 0, and when it is the last expected
    report the job ends failed if every earlier report failed too, and
    reported_with_fails otherwise. *)
Theorem set_failed_analyzer_effect analyzer_name job_id error_message w j :
  db w !! job_id = Some j -> status j <> "failed" -> healthy w ->
  exists (report : pydict) w' j',
    set_failed_analyzer analyzer_name job_id error_message w = (Ok tt, w') /\
    db w' !! job_id = Some j' /\
    analysis_reports j' = (analysis_reports j ++ [report])%list /\
    report !! "name" = Some (VStr analyzer_name) /\
    report !! "success" = Some (VBool false) /\
    report !! "errors" = Some (VList [VStr error_message]) /\
    report !! "process_time" = Some (VNum 0) /\
    (S (length (analysis_reports j)) = length (analyzers_to_execute j) ->
     status j' = if forallb failed_report (analysis_reports j)
                 then "failed" else "reported_with_fails").
Proof.
  intros Hj Hs Hh. rewrite set_failed_analyzer_unfold.
  match goal with
  | |- context [set_report_and_cleanup job_id ?r w] => set (report := r)
  end.
  exists report.
  destruct (decide (S (length (analysis_reports j)) = length (analyzers_to_execute j)))
    as [E|E].
  - eexists. eexists. split; [apply (submit_last _ _ _ _ Hj Hs Hh E)|].
    simpl. split; [apply lookup_insert_eq|]. simpl.
    do 5 (split; [reflexivity|]). intros _.
    rewrite status_to_set_snoc. reflexivity.
  - eexists. eexists. split; [apply (submit_pending _ _ _ _ Hj Hs Hh E)|].
    simpl. split; [apply lookup_insert_eq|]. simpl.
    do 5 (split; [reflexivity|]). intros E'. contradiction.
Qed.

(** ** The runner and the aggregator together *)

Lemma start_report a w w1 w2 r :
  before_run a w = (Ok tt, w1) ->
  run a w1 = (r, w2) ->
  ordinary r = true ->
  exists report : pydict,
    start a w =
      (set_report_and_cleanup (job_id a) report ;; after_run a ;; ret report) w2 /\
    report !! "name" = Some (VStr (analyzer_name a)) /\
    report !! "started_time" = Some (VNum (now w1)) /\
    report !! "started_time_str" = Some (VStr (now_str w1)) /\
    report !! "process_time" = Some (VNum (now w2 - now w1)) /\
    report !! "success" = Some (VBool (is_ok r)) /\
    report !! "report" =
      Some (match r with Ok result => result | Raise _ => VDict [] end) /\
    report !! "errors" =
      Some (VList (match r with
                   | Ok _ => []
                   | Raise e => [VStr (recorded_error a e)]
                   end)) /\
    dom report = list_to_set ["name"; "success"; "report"; "errors";
                              "process_time"; "started_time"; "started_time_str"].
Proof.
  intros Hb Hr Hord.
  unfold start, bind at 1. rewrite Hb.
  unfold get_basic_report_template, bind at 1.
  unfold try_except_else, bind at 1 2. rewrite Hr.
  destruct r as [result|e].
  - eexists. split; [unfold ret, time_time, gets, lift_res, bind at 1 2 3; simpl; reflexivity|].
    do 7 (split; [reflexivity|]).
    rewrite !dom_insert_L. set_solver.
  - simpl in Hord. rewrite Hord.
    unfold recorded_error. destruct (is_analyzer_exception e).
    + eexists. split;
        [unfold _handle_analyzer_exception, ret, time_time, gets, lift_res, bind at 1 2 3 4 5;
         simpl; reflexivity|].
      do 7 (split; [reflexivity|]).
      rewrite !dom_insert_L. set_solver.
    + eexists. split;
        [unfold _handle_base_exception, ret, time_time, gets, lift_res, bind at 1 2 3 4 5;
         simpl; reflexivity|].
      do 7 (split; [reflexivity|]).
      rewrite !dom_insert_L. set_solver.
Qed.

(** X9. The report that [start] returns has exactly the seven keys of the
    template; [name], [started_time] and [started_time_str] are those of the
    moment after [before_run], [process_time] is the time [run] took,
    [success] tells whether [run] returned, [report] is the result of [run]
    (the empty dict when it raised), and [errors] is empty or holds one
    message: the formatted one for an [AnalyzerRunException] or
    [AnalyzerConfigurationException], [str(err)] for any other exception. *)
Theorem start_returns_finalized_report a w w1 w2 w4 r (report : pydict) :
  before_run a w = (Ok tt, w1) ->
  run a w1 = (r, w2) ->
  start a w = (Ok report, w4) ->
  report !! "name" = Some (VStr (analyzer_name a)) /\
  report !! "started_time" = Some (VNum (now w1)) /\
  report !! "started_time_str" = Some (VStr (now_str w1)) /\
  report !! "process_time" = Some (VNum (now w2 - now w1)) /\
  report !! "success" = Some (VBool (is_ok r)) /\
  report !! "report" =
    Some (match r with Ok result => result | Raise _ => VDict [] end) /\
  report !! "errors" =
    Some (VList (match r with
                 | Ok _ => []
                 | Raise e => [VStr (recorded_error a e)]
                 end)) /\
  dom report = list_to_set ["name"; "success"; "report"; "errors";
                            "process_time"; "started_time"; "started_time_str"].
Proof.
  intros Hb Hr Hst.
  assert (ordinary r = true) as Hord.
  { destruct r as [result|e]; [reflexivity|]. simpl.
    destruct (is_exception e) eqn:He; [reflexivity|].
    rewrite (start_lets_base_exception_pass a w w1 w2 e Hb Hr He) in Hst.
    discriminate. }
  destruct (start_report a w w1 w2 r Hb Hr Hord) as (report' & Hst' & Hrest).
  rewrite Hst' in Hst. unfold bind, ret in Hst.
  destruct (set_report_and_cleanup (job_id a) report' w2) as [[[]|e] w3];
    [|discriminate].
  destruct (after_run a w3) as [[[]|e] w5]; [|discriminate].
  injection Hst as <- _. exact Hrest.
Qed.



Lemma log_only_start a w r w2 j :
  before_run a = ret tt -> after_run a = ret tt ->
  run a w = (r, w2) ->
  ordinary r = true ->
  db w2 !! job_id a = Some j -> healthy w2 ->
  exists (report : pydict) w',
    start a w = (Ok report, w') /\
    report !! "success" = Some (VBool (is_ok r)) /\
    (status j = "failed" -> w' = w2) /\
    (status j <> "failed" ->
     exists j', db w' !! job_id a = Some j' /\
                analysis_reports j' = (analysis_reports j ++ [report])%list).
Proof.
  intros Hb Ha Hr Hord Hj Hh.
  destruct (start_report a w w w2 r) as (report & Hst & _ & _ & _ & _ & Hsucc & _).
  { now rewrite Hb. }
  { exact Hr. }
  { exact Hord. }
  rewrite Hst, Ha. unfold bind, ret.
  destruct (decide (status j = "failed")) as [Hs|Hs].
  - rewrite (submit_failed _ _ _ _ Hj Hs Hh).
    exists report, w2. split; [reflexivity|]. split; [exact Hsucc|].
    split; [reflexivity | contradiction].
  - destruct (submit_appends (job_id a) report w2 j Hj Hs Hh)
      as (w3 & j3 & Hrun & _ & Hj3 & Hr3 & _).
    rewrite Hrun. exists report, w3. split; [reflexivity|]. split; [exact Hsucc|].
    split; [contradiction|]. intros _. now exists j3.
Qed.

(** X11. For an [ObservableAnalyzer] and for a [FileAnalyzer], whose hooks only
    log: whenever [run] returns or raises what derives from [Exception], if
    afterwards the job's row exists and the store accepts writes, [start]
    returns the report without raising; the report is stored behind the
    job's reports unless the job is failed, in which case nothing is stored.
    What [run] raises outside [Exception] ([SystemExit], [KeyboardInterrupt])
    leaves [start] as it is, with nothing stored. *)
Theorem observable_and_file_analyzers_contain_exceptions :
  (forall (o : ObservableAnalyzer) w r w2 j,
     oa_run o w = (r, w2) ->
     ordinary r = true ->
     db w2 !! oa_job_id o = Some j -> healthy w2 ->
     exists (report : pydict) w',
       start (observable_analyzer o) w = (Ok report, w') /\
       report !! "success" = Some (VBool (is_ok r)) /\
       (status j = "failed" -> w' = w2) /\
       (status j <> "failed" ->
        exists j', db w' !! oa_job_id o = Some j' /\
                   analysis_reports j' = (analysis_reports j ++ [report])%list)) /\
  (forall (f : FileAnalyzer) w r w2 j,
     fa_run f w = (r, w2) ->
     ordinary r = true ->
     db w2 !! fa_job_id f = Some j -> healthy w2 ->
     exists (report : pydict) w',
       start (file_analyzer f) w = (Ok report, w') /\
       report !! "success" = Some (VBool (is_ok r)) /\
       (status j = "failed" -> w' = w2) /\
       (status j <> "failed" ->
        exists j', db w' !! fa_job_id f = Some j' /\
                   analysis_reports j' = (analysis_reports j ++ [report])%list)) /\
  (forall (o : ObservableAnalyzer) w e w2,
     oa_run o w = (Raise e, w2) -> is_exception e = false ->
     start (observable_analyzer o) w = (Raise e, w2)) /\
  (forall (f : FileAnalyzer) w e w2,
     fa_run f w = (Raise e, w2) -> is_exception e = false ->
     start (file_analyzer f) w = (Raise e, w2)).
Proof.
  split; [|split; [|split]].
  - intros o w r w2 j Hr Hord Hj Hh.
    now apply (log_only_start (observable_analyzer o) w r w2 j).
  - intros f w r w2 j Hr Hord Hj Hh.
    now apply (log_only_start (file_analyzer f) w r w2 j).
  - intros o w e w2 Hr He.
    now apply (start_lets_base_exception_pass (observable_analyzer o) w w w2 e).
  - intros f w e w2 Hr He.
    now apply (start_lets_base_exception_pass (file_analyzer f) w w w2 e).
Qed.

(** ** More on the polling client *)

Section PollingMore.
Variable a : DockerBasedAnalyzer.
Variable req_key : string.

Lemma poll_loop_cases c rest st n :
  match worker n (query_url a req_key) (asked n) with
  | Answer code d =>
      if in_terminal_set (dict_get d "status" VNone)
      then poll_loop a req_key (c :: rest) st n =
             (Ok (mkPollLocals true (Some d)), next_chance a n)
      else poll_loop a req_key (c :: rest) st n =
             poll_loop a req_key rest (mkPollLocals (got_result st) (Some d))
                       (next_chance a n)
  | Failure e =>
      poll_loop a req_key (c :: rest) st n =
        (Raise (if is_request_exception e
                then Exn AnalyzerRunException (str e) else e), next_chance a n)
  end.
Proof.
  destruct (worker n (query_url a req_key) (asked n)) as [code d|e] eqn:E.
  - destruct (in_terminal_set (dict_get d "status" VNone)) eqn:T.
    + now apply poll_loop_break with code.
    + now apply poll_loop_skip with code.
  - now apply poll_loop_raise.
Qed.

Lemma poll_loop_budget chances : forall st n r n',
  poll_loop a req_key chances st n = (r, n') ->
  worker n' = worker n /\
  asked n <= asked n' <= asked n + length chances /\
  slept n' = (slept n + N.of_nat (asked n' - asked n) * poll_distance a)%N.
Proof.
  induction chances as [|c rest IH]; intros st n r n' H.
  - simpl in H. unfold ret in H. injection H as _ <-.
    repeat split; try lia.
  - pose proof (poll_loop_cases c rest st n) as Hc.
    assert (Hnext : worker (next_chance a n) = worker n /\
                    asked n <= asked (next_chance a n) <= asked n + length (c :: rest) /\
                    slept (next_chance a n) =
                      (slept n + N.of_nat (asked (next_chance a n) - asked n)
                                 * poll_distance a)%N).
    { simpl. repeat split; lia. }
    destruct (worker n (query_url a req_key) (asked n)) as [code d|e].
    + destruct (in_terminal_set (dict_get d "status" VNone)).
      * rewrite Hc in H. injection H as _ <-. exact Hnext.
      * rewrite Hc in H. apply IH in H. destruct H as (Hw & Ha & Hs).
        simpl in *. repeat split; try lia; [congruence|].
        rewrite Hs. replace (asked n' - asked n) with (S (asked n' - S (asked n))) by lia.
        lia.
    + rewrite Hc in H. injection H as _ <-. exact Hnext.
Qed.

Lemma poll_for_result_state n r n' :
  _poll_for_result a req_key n = (r, n') ->
  exists r0,
    poll_loop a req_key (seq 0 (Z.to_nat (max_tries a))) (mkPollLocals false None) n
      = (r0, n').
Proof.
  unfold _poll_for_result, bind.
  destruct (poll_loop a req_key _ _ n) as [[st|e] n1] eqn:E.
  - destruct (negb (got_result st)); [intros [= _ <-]; now exists (Ok st)|].
    destruct (json_data st); intros [= _ <-]; now exists (Ok st).
  - intros [= _ <-]. now exists (Raise e).
Qed.

(** X12. However the worker behaves and however [_poll_for_result] ends, it
    makes at most [max_tries] queries and sleeps [poll_distance] once for
    every query it makes. *)
Theorem poll_stays_within_budget n r n' :
  _poll_for_result a req_key n = (r, n') ->
  worker n' = worker n /\
  asked n <= asked n' <= asked n + Z.to_nat (max_tries a) /\
  slept n' = (slept n + N.of_nat (asked n' - asked n) * poll_distance a)%N.
Proof.
  intros H. destruct (poll_for_result_state n r n' H) as (r0 & Hl).
  apply poll_loop_budget in Hl. now rewrite length_seq in Hl.
Qed.

(** X13. With [max_tries] zero or negative [_poll_for_result] raises the
    exhaustion error at once, without sleeping or querying. *)
Theorem poll_without_budget n :
  (max_tries a <= 0)%Z ->
  exists e,
    _poll_for_result a req_key n = (Raise e, n) /\
    class_of e = AnalyzerRunException.
Proof.
  intros Hm. unfold _poll_for_result, bind.
  replace (Z.to_nat (max_tries a)) with 0 by lia. simpl.
  eexists. split; reflexivity.
Qed.

Lemma poll_loop_sound chances : forall st n st' n',
  got_result st = false ->
  poll_loop a req_key chances st n = (Ok st', n') ->
  got_result st' = true ->
  exists code d,
    json_data st' = Some d /\
    in_terminal_set (dict_get d "status" VNone) = true /\
    asked n < asked n' /\
    worker n (query_url a req_key) (asked n' - 1) = Answer code d /\
    forall i, asked n + i < asked n' - 1 ->
      pending_reply (worker n (query_url a req_key) (asked n + i)) = true.
Proof.
  induction chances as [|c rest IH]; intros st n st' n' Hg H Hg'.
  - simpl in H. unfold ret in H. injection H as <- <-. congruence.
  - pose proof (poll_loop_cases c rest st n) as Hc.
    destruct (worker n (query_url a req_key) (asked n)) as [code d|e] eqn:E.
    + destruct (in_terminal_set (dict_get d "status" VNone)) eqn:T.
      * rewrite Hc in H. injection H as <- <-. exists code, d. simpl.
        split; [reflexivity|]. split; [exact T|]. split; [lia|].
        rewrite Nat.sub_0_r. split; [exact E|]. intros i Hi. lia.
      * rewrite Hc in H.
        destruct (IH (mkPollLocals (got_result st) (Some d)) _ _ _ Hg H Hg')
          as (code' & d' & Hjd & Ht & Hlt & Hw & Hp).
        simpl in *. exists code', d'.
        split; [exact Hjd|]. split; [exact Ht|]. split; [lia|].
        split; [exact Hw|]. intros i Hi.
        destruct i as [|i].
        -- rewrite Nat.add_0_r, E. simpl. now rewrite T.
        -- rewrite Nat.add_succ_r. apply Hp. lia.
    + rewrite Hc in H. discriminate.
Qed.

(** X14. Whenever [_poll_for_result] returns a payload, its status is in the
    terminal set, it is the worker's answer to the last query made, and every
    earlier query was answered with a status outside the terminal set. *)
Theorem poll_result_is_a_terminal_answer n d n' :
  _poll_for_result a req_key n = (Ok d, n') ->
  in_terminal_set (dict_get d "status" VNone) = true /\
  asked n < asked n' /\
  (exists code, worker n (query_url a req_key) (asked n' - 1) = Answer code d) /\
  forall i, asked n + i < asked n' - 1 ->
    pending_reply (worker n (query_url a req_key) (asked n + i)) = true.
Proof.
  unfold _poll_for_result, bind.
  destruct (poll_loop a req_key _ _ n) as [[st|e] n1] eqn:E; [|discriminate].
  destruct (got_result st) eqn:G; simpl; [|discriminate].
  destruct (poll_loop_sound _ (mkPollLocals false None) _ _ _ eq_refl E G)
    as (code & d' & Hjd & Ht & Hlt & Hw & Hp).
  rewrite Hjd. intros [= <- <-].
  split; [exact Ht|]. split; [exact Hlt|]. split; [now exists code | exact Hp].
Qed.

(** X15. An exception of a query that is not a [requests.RequestException]
    leaves [_poll_for_result] as it is, not wrapped in an
    [AnalyzerRunException], and ends the polling. *)
Theorem poll_other_exception_passes_through n k e :
  (Z.of_nat k < max_tries a)%Z ->
  (forall i, i < k ->
     pending_reply (worker n (query_url a req_key) (asked n + i)) = true) ->
  worker n (query_url a req_key) (asked n + k) = Failure e ->
  is_request_exception e = false ->
  exists n',
    _poll_for_result a req_key n = (Raise e, n') /\
    asked n' = asked n + S k.
Proof.
  intros Hk Hp E T.
  destruct (poll_loop_reaches a req_key k n Hk Hp) as (jd & c & rest & Hrun).
  eexists. split.
  - unfold _poll_for_result, bind. rewrite Hrun.
    rewrite (poll_loop_raise a req_key c rest _ (after_queries a k n) e E). rewrite T.
    now rewrite next_after_queries.
  - reflexivity.
Qed.

Lemma poll_loop_ignores_codes chances : forall st n1 n2,
  asked n1 = asked n2 -> slept n1 = slept n2 ->
  (forall u i, same_payload (worker n1 u i) (worker n2 u i)) ->
  fst (poll_loop a req_key chances st n1) = fst (poll_loop a req_key chances st n2) /\
  asked (snd (poll_loop a req_key chances st n1)) =
    asked (snd (poll_loop a req_key chances st n2)) /\
  slept (snd (poll_loop a req_key chances st n1)) =
    slept (snd (poll_loop a req_key chances st n2)).
Proof.
  induction chances as [|c rest IH]; intros st n1 n2 Ha Hs Hw.
  - simpl. auto.
  - pose proof (poll_loop_cases c rest st n1) as H1.
    pose proof (poll_loop_cases c rest st n2) as H2.
    pose proof (Hw (query_url a req_key) (asked n1)) as Hsame.
    rewrite Ha in Hsame at 2.
    assert (Hnext : asked (next_chance a n1) = asked (next_chance a n2) /\
                    slept (next_chance a n1) = slept (next_chance a n2))
      by (simpl; split; congruence).
    destruct (worker n1 (query_url a req_key) (asked n1)) as [c1 d1|e1],
             (worker n2 (query_url a req_key) (asked n2)) as [c2 d2|e2];
      simpl in Hsame; try contradiction; subst.
    + destruct (in_terminal_set (dict_get d2 "status" VNone)).
      * rewrite H1, H2. simpl. split; [reflexivity|]. split; congruence.
      * rewrite H1, H2. apply IH; simpl; try congruence. exact Hw.
    + rewrite H1, H2. simpl. split; [reflexivity|]. split; congruence.
Qed.

(** X16. [_poll_for_result] never looks at the HTTP status code except to
    choose a log line: two workers whose replies differ only in status codes
    give the same result after the same number of queries and sleeps. *)
Theorem poll_ignores_status_codes n1 n2 :
  asked n1 = asked n2 -> slept n1 = slept n2 ->
  (forall u i, same_payload (worker n1 u i) (worker n2 u i)) ->
  fst (_poll_for_result a req_key n1) = fst (_poll_for_result a req_key n2) /\
  asked (snd (_poll_for_result a req_key n1)) =
    asked (snd (_poll_for_result a req_key n2)) /\
  slept (snd (_poll_for_result a req_key n1)) =
    slept (snd (_poll_for_result a req_key n2)).
Proof.
  intros Ha Hs Hw.
  destruct (poll_loop_ignores_codes (seq 0 (Z.to_nat (max_tries a)))
              (mkPollLocals false None) n1 n2 Ha Hs Hw) as (Hr & Hq & Hz).
  unfold _poll_for_result, bind.
  destruct (poll_loop a req_key _ _ n1) as [r1 m1],
           (poll_loop a req_key _ _ n2) as [r2 m2].
  simpl in *. subst r2.
  destruct r1 as [st|e]; simpl; [|auto].
  destruct (negb (got_result st)); simpl; [auto|].
  destruct (json_data st); simpl; auto.
Qed.
End PollingMore.

(** ** More on error translation *)

(** X17. On status 400 [_check_status_code] reads [req.json()["error"]] before
    it raises its own error: when the body is a JSON object without an
    [error] key, the call ends with the [KeyError] of the subscript, whose
    text is the quoted key, and not with an [AnalyzerRunException]. *)
Theorem check_status_code_bad_request_without_message name req d :
  resp_status_code req = 400%Z ->
  resp_body req = Some d -> d !! "error" = None ->
  _check_status_code name req = Raise (Exn KeyError "'error'").
Proof.
  intros E Hb He. unfold _check_status_code, json, getitem.
  rewrite E, Hb, He. reflexivity.
Qed.

Lemma bad_request_never_passes req :
  exists e,
    match json req with
    | Ok d => match getitem d "error" with
              | Ok err => Raise (Exn AnalyzerRunException (py_str err))
              | Raise e => Raise e
              end
    | Raise e => @Raise bool e
    end = Raise e /\ class_of e <> HTTPError.
Proof.
  unfold json, getitem.
  destruct (resp_body req) as [d|]; [destruct (d !! "error")|];
    eexists; (split; [reflexivity | discriminate]).
Qed.

(** X18. [_check_status_code] returns exactly for the status codes below 400
    or from 600 on, and then returns true; the library's [HTTPError] is
    raised exactly for the codes from 401 to 599 other than 404 and 500. *)
Theorem check_status_code_passes_exactly_non_error_codes name req :
  (is_ok (_check_status_code name req) = true <->
   (resp_status_code req < 400 \/ 600 <= resp_status_code req)%Z) /\
  (forall b, _check_status_code name req = Ok b -> b = true) /\
  (verdict (_check_status_code name req) = Some HTTPError <->
   (400 < resp_status_code req < 600)%Z /\
   resp_status_code req <> 404%Z /\ resp_status_code req <> 500%Z).
Proof.
  unfold _check_status_code.
  destruct (Z.eqb_spec (resp_status_code req) 404) as [E|N1]; [verdict_row|].
  destruct (Z.eqb_spec (resp_status_code req) 400) as [E|N2].
  { destruct (bad_request_never_passes req) as (e & -> & He). verdict_row. }
  destruct (Z.eqb_spec (resp_status_code req) 500) as [E|N3]; [verdict_row|].
  destruct (Z_lt_le_dec (resp_status_code req) 400) as [Hlo|Hlo];
    [|destruct (Z_lt_le_dec (resp_status_code req) 600) as [Hhi|Hhi]].
  - rewrite (raise_for_status_ok req) by lia. verdict_row.
  - destruct (raise_for_status_error req) as (e & -> & He); [lia|]. verdict_row.
  - rewrite (raise_for_status_ok req) by lia. verdict_row.
Qed.

(** ** The further properties at work on sample data *)

Lemma submission_keeps_own_row_shape_demo :
  exists j',
    db (snd (set_report_and_cleanup 7 demo_ok
               (demo_world ["a"] [None; Some "db down"; Some "db still down"])))
      !! 7%Z = Some j' /\
    analyzers_to_execute j' = ["a"] /\
    (analysis_reports j' = [] \/ analysis_reports j' = [demo_ok]).
Proof.
  apply (submission_keeps_own_row_shape 7 demo_ok
           (demo_world ["a"] [None; Some "db down"; Some "db still down"])
           (demo_job ["a"])
           (fst (set_report_and_cleanup 7 demo_ok
                   (demo_world ["a"] [None; Some "db down"; Some "db still down"])))).
  - reflexivity.
  - vm_compute. reflexivity.
Defined.

Lemma submission_leaves_other_jobs_alone_demo :
  db (snd (set_report_and_cleanup 7 demo_ok demo_two_jobs)) !! 8%Z =
  db demo_two_jobs !! 8%Z.
Proof.
  apply (submission_leaves_other_jobs_alone 7 demo_ok demo_two_jobs
           (fst (set_report_and_cleanup 7 demo_ok demo_two_jobs))).
  - discriminate.
  - vm_compute. reflexivity.
Defined.

Lemma set_job_status_effect_demo :
  exists w',
    set_job_status 7 "failed" (Some ["boom"]) (demo_world ["a"] []) = (Ok tt, w') /\
    db w' !! 7%Z = Some (mkJob "failed" ["a"] [] None ["boom"]).
Proof.
  destruct (set_job_status_effect 7 "failed" (Some ["boom"]) (demo_world ["a"] [])
              (demo_job ["a"])) as (w' & Hrun & Hdb & _).
  - reflexivity.
  - reflexivity.
  - exists w'. split; [exact Hrun|]. rewrite Hdb. reflexivity.
Defined.


Lemma refused_append_is_rolled_back_demo :
  exists w',
    set_report_and_cleanup 7 demo_ok (demo_world ["a"] [Some "db down"]) = (Ok tt, w') /\
    db w' !! 7%Z = Some (mkJob "failed" ["a"] [] (Some 100%Z) ["db down"]).
Proof.
  apply (refused_append_is_rolled_back 7 demo_ok (demo_world ["a"] [Some "db down"])
           (demo_job ["a"]) "db down" []).
  - reflexivity.
  - reflexivity.
  - reflexivity.
Defined.

Lemma status_to_set_characterised_demo :
  status_to_set [demo_failing; demo_ok] = status_to_set [demo_ok; demo_failing].
Proof.
  destruct (status_to_set_characterised [demo_ok; demo_failing]) as [Hperm _].
  apply Hperm. apply perm_swap.
Defined.

Lemma reports_kept_in_submission_order_demo :
  exists w' j',
    submit_all 7 [demo_ok; demo_failing] (demo_world ["a"; "b"; "c"] []) = (Ok tt, w') /\
    db w' !! 7%Z = Some j' /\
    analysis_reports j' = [demo_ok; demo_failing] /\
    status j' = "running".
Proof.
  destruct (reports_kept_in_submission_order 7 [demo_ok; demo_failing]
              (demo_world ["a"; "b"; "c"] []) (demo_job ["a"; "b"; "c"]))
    as (w' & j' & Hrun & Hj & Hr & Hs & _).
  - reflexivity.
  - discriminate.
  - reflexivity.
  - simpl. lia.
  - now exists w', j'.
Defined.

Lemma set_failed_analyzer_effect_demo :
  exists w' j',
    set_failed_analyzer "a" 7 "no such file" (demo_world ["a"] []) = (Ok tt, w') /\
    db w' !! 7%Z = Some j' /\
    status j' = "failed".
Proof.
  destruct (set_failed_analyzer_effect "a" 7 "no such file" (demo_world ["a"] [])
              (demo_job ["a"]))
    as (report & w' & j' & Hrun & Hj & _ & _ & _ & _ & _ & Hst).
  - reflexivity.
  - discriminate.
  - reflexivity.
  - exists w', j'. split; [exact Hrun|]. split; [exact Hj|].
    now apply Hst.
Defined.

Lemma start_returns_finalized_report_demo :
  exists (report : pydict) w',
    start demo_raising (demo_world ["a"] []) = (Ok report, w') /\
    report !! "process_time" = Some (VNum 5) /\
    report !! "success" = Some (VBool false) /\
    report !! "report" = Some (VDict []).
Proof.
  destruct (log_only_start demo_raising (demo_world ["a"] [])
              (Raise (Exn AnalyzerRunException "unreachable host"))
              (advance 5 (demo_world ["a"] [])) (demo_job ["a"])
              eq_refl eq_refl eq_refl eq_refl eq_refl eq_refl)
    as (report & w4 & E & _).
  exists report, w4. split; [exact E|].
  destruct (start_returns_finalized_report demo_raising (demo_world ["a"] [])
              (demo_world ["a"] []) (advance 5 (demo_world ["a"] [])) w4
              (Raise (Exn AnalyzerRunException "unreachable host")) report
              eq_refl eq_refl E)
    as (_ & _ & _ & Hpt & Hs & Hr & _).
  split; [exact Hpt|]. split; [exact Hs | exact Hr].
Defined.


Lemma observable_and_file_analyzers_contain_exceptions_demo :
  (exists (report : pydict) w',
     start (observable_analyzer demo_observable) (demo_world ["a"] []) = (Ok report, w') /\
     report !! "success" = Some (VBool false)) /\
  (exists (report : pydict) w',
     start (file_analyzer demo_file) (demo_world ["a"] []) = (Ok report, w') /\
     report !! "success" = Some (VBool true)) /\
  start (observable_analyzer demo_interrupted) (demo_world ["a"] []) =
    (Raise (Exn KeyboardInterrupt ""), advance 1 (demo_world ["a"] [])).
Proof.
  destruct observable_and_file_analyzers_contain_exceptions
    as (Hobs & Hfile & Hpass & _).
  split; [|split].
  - destruct (Hobs demo_observable (demo_world ["a"] [])
                (Raise (Exn OtherException "division by zero"))
                (advance 5 (demo_world ["a"] [])) (demo_job ["a"]))
      as (report & w' & Hrun & Hs & _);
      [reflexivity | reflexivity | reflexivity | reflexivity |].
    now exists report, w'.
  - destruct (Hfile demo_file (demo_world ["a"] []) (Ok (VStr "clean"))
                (advance 2 (demo_world ["a"] [])) (demo_job ["a"]))
      as (report & w' & Hrun & Hs & _);
      [reflexivity | reflexivity | reflexivity | reflexivity |].
    now exists report, w'.
  - apply (Hpass demo_interrupted); reflexivity.
Defined.

Lemma poll_stays_within_budget_demo :
  asked (snd (_poll_for_result demo_docker "k" (mkNet demo_broken_worker 0 0))) <= 3.
Proof.
  destruct (poll_stays_within_budget demo_docker "k" (mkNet demo_broken_worker 0 0)
              (fst (_poll_for_result demo_docker "k" (mkNet demo_broken_worker 0 0)))
              (snd (_poll_for_result demo_docker "k" (mkNet demo_broken_worker 0 0))))
    as (_ & Hle & _).
  - vm_compute. reflexivity.
  - simpl in Hle. exact (proj2 Hle).
Defined.

Lemma poll_without_budget_demo :
  exists e,
    _poll_for_result (mkDockerBasedAnalyzer "PEframe" 7 "http://peframe:4002/run" 0 5)
                     "k" (mkNet demo_worker 0 0)
      = (Raise e, mkNet demo_worker 0 0) /\
    class_of e = AnalyzerRunException.
Proof.
  apply (poll_without_budget
           (mkDockerBasedAnalyzer "PEframe" 7 "http://peframe:4002/run" 0 5) "k").
  simpl. lia.
Defined.

Lemma poll_result_is_a_terminal_answer_demo :
  in_terminal_set (dict_get demo_done "status" VNone) = true.
Proof.
  destruct (poll_result_is_a_terminal_answer demo_docker "k" (mkNet demo_worker 0 0)
              demo_done
              (snd (_poll_for_result demo_docker "k" (mkNet demo_worker 0 0))))
    as (Ht & _).
  - vm_compute. reflexivity.
  - exact Ht.
Defined.

Lemma poll_other_exception_passes_through_demo :
  exists n',
    _poll_for_result demo_docker "k" (mkNet demo_garbled_worker 0 0) =
      (Raise (Exn OtherException "Expecting value"), n') /\
    asked n' = 2.
Proof.
  apply (poll_other_exception_passes_through demo_docker "k"
           (mkNet demo_garbled_worker 0 0) 1
           (Exn OtherException "Expecting value")).
  - simpl. lia.
  - intros i Hi. destruct i as [|i]; [reflexivity | lia].
  - reflexivity.
  - reflexivity.
Defined.

Lemma poll_ignores_status_codes_demo :
  fst (_poll_for_result demo_docker "k" (mkNet demo_worker 0 0)) =
  fst (_poll_for_result demo_docker "k" (mkNet demo_worker_404 0 0)).
Proof.
  destruct (poll_ignores_status_codes demo_docker "k"
              (mkNet demo_worker 0 0) (mkNet demo_worker_404 0 0)) as (Hr & _).
  - reflexivity.
  - reflexivity.
  - intros u i. destruct i as [|[|i]]; reflexivity.
  - exact Hr.
Defined.

Lemma check_status_code_bad_request_without_message_demo :
  _check_status_code "PEframe" demo_bad_request_bare = Raise (Exn KeyError "'error'").
Proof.
  apply (check_status_code_bad_request_without_message "PEframe"
           demo_bad_request_bare (<["detail" := VStr "no file given"]> ∅));
    reflexivity.
Defined.

Lemma check_status_code_passes_exactly_non_error_codes_demo :
  is_ok (_check_status_code "PEframe"
           (mkResponse 302 None "Found" "http://peframe:4002/run")) = true.
Proof.
  destruct (check_status_code_passes_exactly_non_error_codes "PEframe"
              (mkResponse 302 None "Found" "http://peframe:4002/run")) as [Hok _].
  apply Hok. simpl. lia.
Defined.
